(** * pydantic/_internal/_repr.py: display of objects and of types

    A shallow embedding of the module: the string subclass [PlainRepr], the
    mixin [Representation] with its five rendering methods, and the function
    [display_as_type].

    Conventions of the embedding.
    - A Python [str] is a Rocq [string]; each character stands for the code
      point of the same number (0 to 255).
    - A Python call either returns a value or raises: [result].
    - Python objects are the trees of [pyobj]; an attribute value is a
      subtree, so the object graph is acyclic. *)

From Stdlib Require Import String Ascii List ZArith NArith Bool Arith Lia.
From Stdlib Require Import DecimalString HexadecimalString.
Import ListNotations.
Open Scope string_scope.

Set Implicit Arguments.

(** ** Exceptions and results *)

Inductive exception : Type :=
| AttributeError
| TypeError
| RecursionError
| UserError (name : string).

Inductive result (A : Type) : Type :=
| Ok (a : A)
| Raise (e : exception).

Arguments Ok {A} a.
Arguments Raise {A} e.

Definition bind {A B : Type} (c : result A) (k : A -> result B) : result B :=
  match c with
  | Ok a => k a
  | Raise e => Raise e
  end.

Notation "x <- c ;; k" := (bind c (fun x => k))
  (at level 61, c at next level, right associativity).

(** [map f xs] consumed from left to right; the first exception ends it. *)
Fixpoint mapM {A B : Type} (f : A -> result B) (xs : list A) : result (list B) :=
  match xs with
  | [] => Ok []
  | x :: xs' =>
      y <- f x ;;
      ys <- mapM f xs' ;;
      Ok (y :: ys)
  end.

(** [try: body except AttributeError: handler] *)
Definition try_except_AttributeError {A : Type} (body handler : result A) : result A :=
  match body with
  | Raise AttributeError => handler
  | other => other
  end.

(** ** Strings of the host language *)

Definition dquote : ascii := ascii_of_nat 34.
Definition squote : ascii := "'"%char.
Definition backslash : ascii := "\"%char.

Definition chr (c : ascii) : string := String c EmptyString.

(** [sep.join(parts)] *)
Definition join (sep : string) (parts : list string) : string :=
  String.concat sep parts.

Fixpoint contains_char (c : ascii) (s : string) : bool :=
  match s with
  | EmptyString => false
  | String d s' => Ascii.eqb c d || contains_char c s'
  end.

Definition hexdigit (n : nat) : ascii :=
  nth n (list_ascii_of_string "0123456789abcdef") "0"%char.

(** The escape [\xhh] of a code point below 256. *)
Definition hex_escape (n : nat) : string :=
  String backslash (String "x"%char
    (String (hexdigit (n / 16)) (String (hexdigit (n mod 16)) EmptyString))).

(** [str.isprintable] on the code points 128 to 255: the C1 controls, the
    no-break space and the soft hyphen are not printable. *)
Definition printable_high (n : nat) : bool :=
  ((160 <? n) && negb (n =? 173))%nat.

Definition repr_char (quote : ascii) (c : ascii) : string :=
  let n := nat_of_ascii c in
  if Ascii.eqb c quote || Ascii.eqb c backslash then String backslash (chr c)
  else if (n =? 9)%nat then String backslash "t"
  else if (n =? 10)%nat then String backslash "n"
  else if (n =? 13)%nat then String backslash "r"
  else if ((n <? 32) || (n =? 127))%nat then hex_escape n
  else if (n <? 127)%nat then chr c
  else if printable_high n then chr c
  else hex_escape n.

Fixpoint repr_chars (quote : ascii) (s : string) : string :=
  match s with
  | EmptyString => EmptyString
  | String c s' => repr_char quote c ++ repr_chars quote s'
  end.

(** [str.__repr__]: single quotes, unless the text has a single quote and no
    double quote. *)
Definition str_repr (s : string) : string :=
  let quote :=
    if contains_char squote s && negb (contains_char dquote s)
    then dquote else squote in
  chr quote ++ repr_chars quote s ++ chr quote.

(** [int.__repr__]: the decimal numeral. *)
Definition int_repr (n : Z) : string :=
  DecimalString.NilZero.string_of_int (Z.to_int n).

Definition bool_repr (b : bool) : string :=
  if b then "True" else "False".

(** [s.replace(old, new)]: every occurrence of [old] from left to right,
    without overlap.  [skip] counts the characters of a match still to drop. *)
Fixpoint replace_from (old new : string) (skip : nat) (s : string) : string :=
  match s with
  | EmptyString => EmptyString
  | String c s' =>
      match skip with
      | S k => replace_from old new k s'
      | O =>
          if String.prefix old s
          then new ++ replace_from old new (String.length old - 1) s'
          else String c (replace_from old new 0 s')
      end
  end.

Fixpoint intersperse_all (new s : string) : string :=
  match s with
  | EmptyString => new
  | String c s' => new ++ String c (intersperse_all new s')
  end.

Definition replace (old new s : string) : string :=
  match old with
  | EmptyString => intersperse_all new s
  | _ => replace_from old new 0 s
  end.

(** ** Objects of the host language *)

(** What the module reads of a class. *)
Record class_info : Type := {
  cls_module : string;      (* __module__ *)
  cls_qualname : string;    (* __qualname__ *)
  cls_name : string         (* __name__ *)
}.

Definition builtin_class (name : string) : class_info :=
  {| cls_module := "builtins"; cls_qualname := name; cls_name := name |}.

(** What [typing_extensions.get_origin] can return, as far as the module
    tells the cases apart: it compares the origin with [typing.Union],
    [types.UnionType] and [Literal] only. *)
Inductive origin : Type :=
| typing_Union
| types_UnionType
| typing_Literal
| other_origin (name : string).

(** An instance of a subclass of [Representation], over the values [V] of its
    attributes.  [repr_name_override] and [repr_args_override] are what the
    subclass's own [__repr_name__] and [__repr_args__] give on this object,
    when the subclass defines them. *)
Record instance_of (V : Type) : Type := {
  cls : class_info;                                    (* self.__class__ *)
  repr_name_override : option string;
  repr_args_override : option (result (list (option string * V)));
  slots : list string;                (* getattr(self, '__slots__', None) *)
  slot_store : list (string * option V);       (* declared slots, set or not *)
  dict : option (list (string * V))            (* self.__dict__, when present *)
}.

(** An object of the typing machinery (a generic alias, a union, a special
    form, a type variable), by what the module observes of it. *)
Record typing_of (V : Type) : Type := {
  typing_cls : class_info;                             (* obj.__class__ *)
  with_args : bool;            (* isinstance(obj, _typing_extra.WithArgsTypes) *)
  get_origin_of : option origin;                       (* get_origin(obj) *)
  get_args_of : list V;                                (* get_args(obj) *)
  qualname_of : option string;    (* obj.__qualname__, None: AttributeError *)
  repr_of : result string                      (* repr(obj), also str(obj) *)
}.

#[warnings="-register-all"]
Inductive pyobj : Type :=
| PyNone
| PyBool (b : bool)
| PyInt (n : Z)
| PyStr (s : string)
| PlainRepr (s : string)
| PyEllipsis
| PyFunction (name qualname : string) (addr : N)      (* types.FunctionType *)
| PyTypeAliasType (name : string)
| PyType (c : class_info)                 (* a class whose metaclass is type *)
| PyTyping (t : typing_of pyobj)
| PyInstance (o : instance_of pyobj).

Definition instance : Type := instance_of pyobj.
Definition typing_object : Type := typing_of pyobj.
Definition ReprArgs : Type := list (option string * pyobj).

(** Nesting depth of an object: the recursion of [repr] and of
    [display_as_type] descends by one level at each call. *)
Fixpoint depth (v : pyobj) : nat :=
  match v with
  | PyTyping t => S (list_max (map depth (get_args_of t)))
  | PyInstance o =>
      S (Nat.max
           (match repr_args_override o with
            | Some (Ok entries) => list_max (map (fun e => depth (snd e)) entries)
            | _ => 0
            end)
           (Nat.max
              (list_max (map (fun e => match snd e with
                                       | Some x => depth x
                                       | None => 0
                                       end) (slot_store o)))
              (match dict o with
               | Some d => list_max (map (fun e => depth (snd e)) d)
               | None => 0
               end)))
  | _ => 0
  end.

(** ** class Representation *)

(** The two customisation points of the mixin: a subclass may define its own
    [__repr_args__] and [__repr_name__]; the other methods call them through
    [self]. *)
Class Representable (Self : Type) : Type := {
  __repr_args__ : Self -> result ReprArgs;
  __repr_name__ : Self -> string
}.

Definition assoc {V : Type} (key : string) (l : list (string * V)) : option V :=
  match find (fun e => String.eqb key (fst e)) l with
  | Some e => Some (snd e)
  | None => None
  end.

(** [getattr(self, s)]: a declared slot holds the attribute, or raises when it
    is not set; any other name is looked up in [__dict__]. *)
Definition getattr (self : instance) (s : string) : result pyobj :=
  match assoc s (slot_store self) with
  | Some (Some v) => Ok v
  | Some None => Raise AttributeError
  | None =>
      match dict self with
      | Some d =>
          match assoc s d with
          | Some v => Ok v
          | None => Raise AttributeError
          end
      | None => Raise AttributeError
      end
  end.

(** [self.__dict__.keys()] *)
Definition dict_keys (self : instance) : result (list string) :=
  match dict self with
  | Some d => Ok (map fst d)
  | None => Raise AttributeError
  end.

(** [v is not None] *)
Definition is_not_None (v : pyobj) : bool :=
  match v with
  | PyNone => false
  | _ => true
  end.

(** Truth value of a collection of names: empty is false. *)
Definition truthy_names (names : list string) : bool :=
  match names with
  | [] => false
  | _ :: _ => true
  end.

(** [[(s, getattr(self, s)) for s in attrs_names if getattr(self, s) is not None]] *)
Fixpoint attrs_comprehension (self : instance) (attrs_names : list string)
  : result ReprArgs :=
  match attrs_names with
  | [] => Ok []
  | s :: rest =>
      cond <- getattr self s ;;
      if is_not_None cond then
        v <- getattr self s ;;
        tail <- attrs_comprehension self rest ;;
        Ok ((Some s, v) :: tail)
      else attrs_comprehension self rest
  end.

(** What one attribute name contributes to the comprehension when no
    lookup raises: the entry of a value that is not None. *)
Definition kept_entry (self : instance) (s : string) : ReprArgs :=
  match getattr self s with
  | Ok v => if is_not_None v then [(Some s, v)] else []
  | Raise _ => []
  end.

(** [getattr(self, '__slots__', None) or self.__dict__.keys()] *)
Definition attrs_names_of (self : instance) : result (list string) :=
  if truthy_names (slots self) then Ok (slots self) else dict_keys self.

(** [Representation.__repr_args__] *)
Definition Representation__repr_args__ (self : instance) : result ReprArgs :=
  attrs_names <- attrs_names_of self ;;
  attrs_comprehension self attrs_names.

(** [Representation.__repr_name__] *)
Definition Representation__repr_name__ (self : instance) : string :=
  cls_name (cls self).

(** Method resolution on an instance: the subclass's definition when there is
    one, else the one inherited from [Representation]. *)
#[export] Instance instance_Representable : Representable instance := {
  __repr_args__ self :=
    match repr_args_override self with
    | Some r => r
    | None => Representation__repr_args__ self
    end;
  __repr_name__ self :=
    match repr_name_override self with
    | Some name => name
    | None => Representation__repr_name__ self
    end
}.

(** Truth value of an entry's name: [None] and the empty string are false. *)
Definition truthy (a : option string) : bool :=
  match a with
  | None => false
  | Some EmptyString => false
  | Some (String _ _) => true
  end.

(** [format(a)] of a name that passed the truth test. *)
Definition format_name (a : option string) : string :=
  match a with
  | Some s => s
  | None => "None"
  end.

(** What the pretty-printing hooks yield. *)
Inductive token (F : Type) : Type :=
| TStr (s : string)
| TInt (n : Z)
| TFmt (x : F).

Arguments TStr {F} s.
Arguments TInt {F} n.
Arguments TFmt {F} x.

Inductive rich_item : Type :=
| RichValue (v : pyobj)                       (* yield field_repr *)
| RichPair (name : string) (v : pyobj).       (* yield name, field_repr *)

Section Mixin.
Context {Self : Type} `{Representable Self}.

(** The built-in [repr] of the attribute values. *)
Variable repr : pyobj -> result string.

(** [f'{a}={v!r}' if a else repr(v)] *)
Definition repr_entry (e : option string * pyobj) : result string :=
  let (a, v) := e in
  if truthy a then
    r <- repr v ;;
    Ok (format_name a ++ "=" ++ r)
  else repr v.

Definition __repr_str__ (self : Self) (join_str : string) : result string :=
  args <- __repr_args__ self ;;
  parts <- mapM repr_entry args ;;
  Ok (join join_str parts).

Definition __str__ (self : Self) : result string :=
  __repr_str__ self " ".

Definition __repr__ (self : Self) : result string :=
  let name := __repr_name__ self in
  s <- __repr_str__ self ", " ;;
  Ok (name ++ "(" ++ s ++ ")").
End Mixin.

(** ** class PlainRepr(str) *)

(** A method of the string classes: from the text of [self] and the other
    arguments to the returned object. *)
Definition str_method : Type := string -> list pyobj -> result pyobj.

(** The text of an argument that is a [str], of the class itself or of a
    subclass. *)
Definition text_of (v : pyobj) : option string :=
  match v with
  | PyStr t => Some t
  | PlainRepr t => Some t
  | _ => None
  end.

(** [str.__str__]: the text itself, as an exact [str]. *)
Definition str__str__ (self : string) : string := self.

(** [sub in s] *)
Fixpoint is_substring (sub s : string) : bool :=
  String.prefix sub s
  || match s with
     | EmptyString => false
     | String _ s' => is_substring sub s'
     end.

(** A method that takes no argument besides [self]. *)
Definition nullary (body : string -> pyobj) : str_method :=
  fun self args =>
    match args with
    | [] => Ok (body self)
    | _ :: _ => Raise TypeError
    end.

(** A method that takes one argument, a string. *)
Definition with_str (body : string -> string -> pyobj) : str_method :=
  fun self args =>
    match args with
    | [other] =>
        match text_of other with
        | Some t => Ok (body self t)
        | None => Raise TypeError
        end
    | _ => Raise TypeError
    end.

(** Some methods of the built-in class [str]. *)
Definition str_namespace (name : string) : option str_method :=
  if String.eqb name "__repr__" then
    Some (nullary (fun self => PyStr (str_repr self)))
  else if String.eqb name "__str__" then
    Some (nullary (fun self => PyStr (str__str__ self)))
  else if String.eqb name "__len__" then
    Some (nullary (fun self => PyInt (Z.of_nat (String.length self))))
  else if String.eqb name "__add__" then
    Some (with_str (fun self t => PyStr (self ++ t)))
  else if String.eqb name "__contains__" then
    Some (with_str (fun self t => PyBool (is_substring t self)))
  else None.

(** [PlainRepr.__repr__]: [return str(self)].  The class body has no
    [__str__] of its own, so [str(self)] is [str.__str__(self)]. *)
Definition PlainRepr__repr__ (self : string) : string := str__str__ self.

(** The body of [class PlainRepr(str)]: one method. *)
Definition PlainRepr_namespace (name : string) : option str_method :=
  if String.eqb name "__repr__" then
    Some (nullary (fun self => PyStr (PlainRepr__repr__ self)))
  else None.

(** Attribute lookup on the type along the method resolution order. *)
Fixpoint lookup_method (mro : list (string -> option str_method)) (name : string)
  : option str_method :=
  match mro with
  | [] => None
  | namespace :: bases =>
      match namespace name with
      | Some m => Some m
      | None => lookup_method bases name
      end
  end.

Definition mro_str : list (string -> option str_method) := [str_namespace].
Definition mro_PlainRepr : list (string -> option str_method) :=
  [PlainRepr_namespace; str_namespace].

(** Calling method [name] of a string object with [args]. *)
Definition call_method (obj : pyobj) (name : string) (args : list pyobj)
  : result pyobj :=
  match obj with
  | PyStr s =>
      match lookup_method mro_str name with
      | Some m => m s args
      | None => Raise AttributeError
      end
  | PlainRepr s =>
      match lookup_method mro_PlainRepr name with
      | Some m => m s args
      | None => Raise AttributeError
      end
  | _ => Raise AttributeError
  end.

(** ** The built-in repr and str *)

(** [type.__repr__] *)
Definition type_repr (c : class_info) : string :=
  if String.eqb (cls_module c) "builtins"
  then "<class '" ++ cls_qualname c ++ "'>"
  else "<class '" ++ cls_module c ++ "." ++ cls_qualname c ++ "'>".

(** [function.__repr__] *)
Definition function_repr (qualname : string) (addr : N) : string :=
  "<function " ++ qualname ++ " at 0x"
    ++ HexadecimalString.NilZero.string_of_uint (N.to_hex_uint addr) ++ ">".

(** [repr(v)] with at most [limit] nested calls of [Representation.__repr__]. *)
Fixpoint repr_upto (limit : nat) (v : pyobj) : result string :=
  match v with
  | PyNone => Ok "None"
  | PyBool b => Ok (bool_repr b)
  | PyInt n => Ok (int_repr n)
  | PyStr s => Ok (str_repr s)
  | PlainRepr s => Ok (PlainRepr__repr__ s)
  | PyEllipsis => Ok "Ellipsis"
  | PyFunction _ qualname addr => Ok (function_repr qualname addr)
  | PyTypeAliasType name => Ok name
  | PyType c => Ok (type_repr c)
  | PyTyping t => repr_of t
  | PyInstance o =>
      match limit with
      | O => Raise RecursionError
      | S k => __repr__ (repr_upto k) o
      end
  end.

(** [repr(v)]: the nesting of [v] bounds the calls. *)
Definition repr (v : pyobj) : result string := repr_upto (depth v) v.

(** [str(v)]: the text of a string, [Representation.__str__] for an instance,
    [repr(v)] for the classes that inherit [object.__str__]. *)
Definition str (v : pyobj) : result string :=
  match v with
  | PyStr s => Ok (str__str__ s)
  | PlainRepr s => Ok (str__str__ s)
  | PyInstance o => __str__ repr o
  | _ => repr v
  end.

(** ** display_as_type *)

(** What [display_as_type] asks of its argument. *)

(** [isinstance(obj, types.FunctionType)] *)
Definition isinstance_FunctionType (obj : pyobj) : bool :=
  match obj with
  | PyFunction _ _ _ => true
  | _ => false
  end.

(** [obj is ...] *)
Definition is_Ellipsis (obj : pyobj) : bool :=
  match obj with
  | PyEllipsis => true
  | _ => false
  end.

(** [isinstance(obj, Representation)] *)
Definition isinstance_Representation (obj : pyobj) : bool :=
  match obj with
  | PyInstance _ => true
  | _ => false
  end.

(** [isinstance(obj, typing_extensions.TypeAliasType)] *)
Definition isinstance_TypeAliasType (obj : pyobj) : bool :=
  match obj with
  | PyTypeAliasType _ => true
  | _ => false
  end.

(** [isinstance(obj, type)] *)
Definition isinstance_type (obj : pyobj) : bool :=
  match obj with
  | PyType _ => true
  | _ => false
  end.

(** Modelled from the spec: [_typing_extra.WithArgsTypes], the classes of the
    parameterized types, is not in the module.  Whether an object of the
    typing machinery is an instance of one of them is a datum of the object;
    no other object is. *)
Definition isinstance_WithArgsTypes (obj : pyobj) : bool :=
  match obj with
  | PyTyping t => with_args t
  | _ => false
  end.

(** Modelled from the spec: [_typing_extra.typing_base], the base class of the
    objects of the typing machinery, is not in the module.  The objects of
    [PyTyping] are the instances of it or of [WithArgsTypes]. *)
Definition isinstance_typing_base_or_WithArgsTypes (obj : pyobj) : bool :=
  match obj with
  | PyTyping _ => true
  | _ => false
  end.

(** [isinstance(obj, (typing_base, WithArgsTypes, type))] *)
Definition isinstance_type_expression (obj : pyobj) : bool :=
  isinstance_typing_base_or_WithArgsTypes obj || isinstance_type obj.

Definition PlainRepr_class : class_info :=
  {| cls_module := "pydantic._internal._repr";
     cls_qualname := "PlainRepr";
     cls_name := "PlainRepr" |}.

Definition TypeAliasType_class : class_info :=
  {| cls_module := "typing";
     cls_qualname := "TypeAliasType";
     cls_name := "TypeAliasType" |}.

(** [obj.__class__] *)
Definition __class__ (obj : pyobj) : pyobj :=
  PyType
    match obj with
    | PyNone => builtin_class "NoneType"
    | PyBool _ => builtin_class "bool"
    | PyInt _ => builtin_class "int"
    | PyStr _ => builtin_class "str"
    | PlainRepr _ => PlainRepr_class
    | PyEllipsis => builtin_class "ellipsis"
    | PyFunction _ _ _ => builtin_class "function"
    | PyTypeAliasType _ => TypeAliasType_class
    | PyType _ => builtin_class "type"
    | PyTyping t => typing_cls t
    | PyInstance o => cls o
    end.

(** [typing_extensions.get_origin(obj)] *)
Definition get_origin (obj : pyobj) : option origin :=
  match obj with
  | PyTyping t => get_origin_of t
  | _ => None
  end.

(** [typing_extensions.get_args(obj)] *)
Definition get_args (obj : pyobj) : list pyobj :=
  match obj with
  | PyTyping t => get_args_of t
  | _ => []
  end.

(** Modelled from the spec: [_typing_extra.origin_is_union] is not in the
    module; the spec's union type is an object whose origin is the union
    marker, [typing.Union] or [types.UnionType]. *)
Definition origin_is_union (tp : option origin) : bool :=
  match tp with
  | Some typing_Union => true
  | Some types_UnionType => true
  | _ => false
  end.

(** [get_origin(obj) == typing_extensions.Literal] *)
Definition origin_is_Literal (tp : option origin) : bool :=
  match tp with
  | Some typing_Literal => true
  | _ => false
  end.

(** [obj.__name__] *)
Definition getattr__name__ (obj : pyobj) : result string :=
  match obj with
  | PyFunction name _ _ => Ok name
  | PyTypeAliasType name => Ok name
  | PyType c => Ok (cls_name c)
  | _ => Raise AttributeError
  end.

(** [obj.__qualname__] *)
Definition getattr__qualname__ (obj : pyobj) : result string :=
  match obj with
  | PyFunction _ qualname _ => Ok qualname
  | PyType c => Ok (cls_qualname c)
  | PyTyping t =>
      match qualname_of t with
      | Some q => Ok q
      | None => Raise AttributeError
      end
  | _ => Raise AttributeError
  end.

(** The object [display_as_type] goes on with after its first four tests:
    [if not isinstance(obj, (...)): obj = obj.__class__]. *)
Definition type_expression_of (obj : pyobj) : pyobj :=
  if negb (isinstance_type_expression obj) then __class__ obj else obj.

(** The body of [display_as_type]; [display_as_type] inside it is the
    function itself. *)
Definition display_as_type_body (display_as_type : pyobj -> result string)
  (obj : pyobj) : result string :=
  if isinstance_FunctionType obj then getattr__name__ obj
  else if is_Ellipsis obj then Ok "..."
  else if isinstance_Representation obj then repr obj
  else if isinstance_TypeAliasType obj then str obj
  else
    let obj := type_expression_of obj in
    if origin_is_union (get_origin obj) then
      parts <- mapM display_as_type (get_args obj) ;;
      let args := join ", " parts in
      Ok ("Union[" ++ args ++ "]")
    else if isinstance_WithArgsTypes obj then
      parts <- (if origin_is_Literal (get_origin obj)
                then mapM repr (get_args obj)
                else mapM display_as_type (get_args obj)) ;;
      let args := join ", " parts in
      try_except_AttributeError
        (qualname <- getattr__qualname__ obj ;;
         Ok (qualname ++ "[" ++ args ++ "]"))
        (str obj)
    else if isinstance_type obj then getattr__qualname__ obj
    else
      r <- repr obj ;;
      Ok (replace "typing_extensions." "" (replace "typing." "" r)).

(** [display_as_type] with at most [limit] nested calls. *)
Fixpoint display_upto (limit : nat) (obj : pyobj) : result string :=
  match limit with
  | O => Raise RecursionError
  | S k => display_as_type_body (display_upto k) obj
  end.

Definition display_as_type (obj : pyobj) : result string :=
  display_upto (S (depth obj)) obj.

(** What the branch of the parameterized types returns once the arguments
    are rendered: [f'{obj.__qualname__}[{args}]'], or [str(obj)] when the
    attribute is missing. *)
Definition bracketed (t : typing_object) (parts : list string) : result string :=
  match qualname_of t with
  | Some qualname => Ok (qualname ++ "[" ++ join ", " parts ++ "]")
  | None => repr_of t
  end.

(** How the branch of the parameterized types renders an argument. *)
Definition render_argument (t : typing_object) : pyobj -> result string :=
  if origin_is_Literal (get_origin_of t) then repr else display_as_type.


(** ** The generator methods *)

(** One [next(g)] on a generator: a yielded value, the end, or an exception. *)
Inductive outcome (T : Type) : Type :=
| Yielded (t : T)
| StopIteration
| Raised (e : exception).

Arguments Yielded {T} t.
Arguments StopIteration {T}.
Arguments Raised {T} e.

(** How the consumption of a generator ends; [Suspended]: the consumer
    stopped asking first. *)
Inductive ending : Type :=
| Exhausted
| Failed (e : exception)
| Suspended.

Section Generator.
Variables (frame T : Type).
Variable next : frame -> outcome T * frame.

(** At most [count] calls of [next(g)], collecting what is yielded. *)
Fixpoint consume (count : nat) (g : frame) : list T * ending :=
  match count with
  | O => ([], Suspended)
  | S k =>
      match next g with
      | (Yielded t, g') => let (ts, e) := consume k g' in (t :: ts, e)
      | (StopIteration, _) => ([], Exhausted)
      | (Raised e, _) => ([], Failed e)
      end
  end.
End Generator.

(** The frame of a call of [__pretty__]: where the body is suspended, with
    the entries the [for] loop has not reached yet. *)
Inductive pretty_frame : Type :=
| pretty_created                                  (* body not started *)
| pretty_at_open                                  (* yield name + '(' *)
| pretty_at_indent                                (* yield 1 *)
| pretty_at_name (value : pyobj) (rest : ReprArgs)   (* yield name + '=' *)
| pretty_at_value (rest : ReprArgs)               (* yield fmt(value) *)
| pretty_at_comma (rest : ReprArgs)               (* yield ',' *)
| pretty_at_newline (rest : ReprArgs)             (* yield 0 *)
| pretty_at_dedent                                (* yield -1 *)
| pretty_at_close                                 (* yield ')' *)
| pretty_finished.

(** The frame of a call of [__rich_repr__]. *)
Inductive rich_frame : Type :=
| rich_created
| rich_in_loop (rest : ReprArgs)
| rich_finished.

(** What a caller holding [self] can do: ask for the debug string, start a
    pretty-print generator, advance the generator number [i]. *)
Inductive call : Type :=
| call_repr
| call_pretty
| call_next (i : nat).

Inductive observation (F : Type) : Type :=
| Returned (r : result string)
| Created (i : nat)
| Stepped (i : nat) (o : outcome (token F))
| NoSuchGenerator.

Arguments Returned {F} r.
Arguments Created {F} i.
Arguments Stepped {F} i o.
Arguments NoSuchGenerator {F}.

(** The object and the generators made so far. *)
Record world (Self : Type) : Type := {
  the_object : Self;
  generators : list pretty_frame
}.

Section Hooks.
Context {Self : Type} `{Representable Self}.
Context {F : Type}.

(** The formatter the pretty printer passes in. *)
Variable fmt : pyobj -> F.

(** [self.__pretty__(fmt, **kwargs)] makes a generator; nothing of the body
    runs yet. *)
Definition __pretty__ (self : Self) : pretty_frame := pretty_created.

(** The head of [for name, value in ...]: the next entry, or the code after
    the loop. *)
Definition pretty_loop (rest : ReprArgs) : outcome (token F) * pretty_frame :=
  match rest with
  | [] => (Yielded (TInt (-1)), pretty_at_dedent)
  | (name, value) :: rest' =>
      match name with
      | Some n => (Yielded (TStr (n ++ "=")), pretty_at_name value rest')
      | None => (Yielded (TFmt (fmt value)), pretty_at_value rest')
      end
  end.

(** [next(g)] for a generator of [__pretty__] on [self]. *)
Definition pretty_next (self : Self) (g : pretty_frame)
  : outcome (token F) * pretty_frame :=
  match g with
  | pretty_created =>
      (Yielded (TStr (__repr_name__ self ++ "(")), pretty_at_open)
  | pretty_at_open => (Yielded (TInt 1), pretty_at_indent)
  | pretty_at_indent =>
      match __repr_args__ self with
      | Ok args => pretty_loop args
      | Raise e => (Raised e, pretty_finished)
      end
  | pretty_at_name value rest => (Yielded (TFmt (fmt value)), pretty_at_value rest)
  | pretty_at_value rest => (Yielded (TStr ","), pretty_at_comma rest)
  | pretty_at_comma rest => (Yielded (TInt 0), pretty_at_newline rest)
  | pretty_at_newline rest => pretty_loop rest
  | pretty_at_dedent => (Yielded (TStr ")"), pretty_at_close)
  | pretty_at_close => (StopIteration, pretty_finished)
  | pretty_finished => (StopIteration, pretty_finished)
  end.

(** [self.__rich_repr__()] *)
Definition __rich_repr__ (self : Self) : rich_frame := rich_created.

Definition rich_loop (rest : ReprArgs) : outcome rich_item * rich_frame :=
  match rest with
  | [] => (StopIteration, rich_finished)
  | (name, field_repr) :: rest' =>
      match name with
      | None => (Yielded (RichValue field_repr), rich_in_loop rest')
      | Some n => (Yielded (RichPair n field_repr), rich_in_loop rest')
      end
  end.

(** [next(g)] for a generator of [__rich_repr__] on [self]. *)
Definition rich_next (self : Self) (g : rich_frame)
  : outcome rich_item * rich_frame :=
  match g with
  | rich_created =>
      match __repr_args__ self with
      | Ok args => rich_loop args
      | Raise e => (Raised e, rich_finished)
      end
  | rich_in_loop rest => rich_loop rest
  | rich_finished => (StopIteration, rich_finished)
  end.

(** *** The sequences in closed form *)

Definition pretty_entry (e : option string * pyobj) : list (token F) :=
  let (name, value) := e in
  match name with
  | Some n => [TStr (n ++ "=")]
  | None => []
  end ++ [TFmt (fmt value); TStr ","; TInt 0].

Definition pretty_entries (args : ReprArgs) : list (token F) :=
  flat_map pretty_entry args ++ [TInt (-1); TStr ")"].

(** Everything a generator suspended at [g] has still to yield, and how it
    ends. *)
Definition pretty_rest (self : Self) (g : pretty_frame) : list (token F) * ending :=
  let body :=
    match __repr_args__ self with
    | Ok args => (pretty_entries args, Exhausted)
    | Raise e => ([], Failed e)
    end in
  match g with
  | pretty_created =>
      (TStr (__repr_name__ self ++ "(") :: TInt 1 :: fst body, snd body)
  | pretty_at_open => (TInt 1 :: fst body, snd body)
  | pretty_at_indent => body
  | pretty_at_name value rest =>
      (TFmt (fmt value) :: TStr "," :: TInt 0 :: pretty_entries rest, Exhausted)
  | pretty_at_value rest => (TStr "," :: TInt 0 :: pretty_entries rest, Exhausted)
  | pretty_at_comma rest => (TInt 0 :: pretty_entries rest, Exhausted)
  | pretty_at_newline rest => (pretty_entries rest, Exhausted)
  | pretty_at_dedent => ([TStr ")"], Exhausted)
  | pretty_at_close => ([], Exhausted)
  | pretty_finished => ([], Exhausted)
  end.

(** [list(self.__pretty__(fmt))], with the way it ends. *)
Definition pretty_tokens (self : Self) : list (token F) * ending :=
  pretty_rest self (__pretty__ self).

Definition rich_entry (e : option string * pyobj) : rich_item :=
  let (name, field_repr) := e in
  match name with
  | None => RichValue field_repr
  | Some n => RichPair n field_repr
  end.

(** [list(self.__rich_repr__())], with the way it ends. *)
Definition rich_items (self : Self) : list rich_item * ending :=
  match __repr_args__ self with
  | Ok args => (map rich_entry args, Exhausted)
  | Raise e => ([], Failed e)
  end.

(** *** Callers *)

(** The built-in [repr] of the attribute values. *)
Variable repr_of_value : pyobj -> result string.

Fixpoint set_nth (i : nat) (g : pretty_frame) (gs : list pretty_frame)
  : list pretty_frame :=
  match gs, i with
  | [], _ => []
  | _ :: gs', O => g :: gs'
  | g0 :: gs', S j => g0 :: set_nth j g gs'
  end.

(** The frame of generator [i]; one not made yet is as good as new. *)
Definition frame_at (w : world Self) (i : nat) : pretty_frame :=
  nth i (generators w) pretty_created.

(** What generator [i] has still to yield. *)
Definition rest_at (w : world Self) (i : nat) : list (token F) :=
  fst (pretty_rest (the_object w) (frame_at w i)).

(** One call, on the object as it is and the generators as they stand. *)
Definition exec (c : call) (w : world Self) : observation F * world Self :=
  match c with
  | call_repr => (Returned (__repr__ repr_of_value (the_object w)), w)
  | call_pretty =>
      (Created (List.length (generators w)),
       {| the_object := the_object w;
          generators := generators w ++ [__pretty__ (the_object w)] |})
  | call_next i =>
      match nth_error (generators w) i with
      | Some g =>
          let (o, g') := pretty_next (the_object w) g in
          (Stepped i o,
           {| the_object := the_object w;
              generators := set_nth i g' (generators w) |})
      | None => (NoSuchGenerator, w)
      end
  end.

(** The calls one after the other, with what each caller observes. *)
Fixpoint run (calls : list call) (w : world Self)
  : list (observation F) * world Self :=
  match calls with
  | [] => ([], w)
  | c :: calls' =>
      let (o, w') := exec c w in
      let (os, w'') := run calls' w' in
      (o :: os, w'')
  end.

(** The tokens generator [i] yielded during a run. *)
Fixpoint yielded_by (i : nat) (obs : list (observation F)) : list (token F) :=
  match obs with
  | [] => []
  | Stepped j (Yielded t) :: obs' =>
      if Nat.eqb i j then t :: yielded_by i obs' else yielded_by i obs'
  | _ :: obs' => yielded_by i obs'
  end.

(** The debug strings returned during a run. *)
Fixpoint returned (obs : list (observation F)) : list (result string) :=
  match obs with
  | [] => []
  | Returned r :: obs' => r :: returned obs'
  | _ :: obs' => returned obs'
  end.

(** Generator [i] reached its end during the run. *)
Fixpoint ended (i : nat) (obs : list (observation F)) : bool :=
  match obs with
  | [] => false
  | Stepped j StopIteration :: obs' => Nat.eqb i j || ended i obs'
  | Stepped j (Raised _) :: obs' => Nat.eqb i j || ended i obs'
  | _ :: obs' => ended i obs'
  end.
End Hooks.

(** ** Objects used in the examples *)

Definition user_class (name : string) : class_info :=
  {| cls_module := "__main__"; cls_qualname := name; cls_name := name |}.

(** An instance of [class name(Representation)] with attributes stored in its
    [__dict__]: the class declares no slots and overrides nothing. *)
Definition plain_instance (name : string) (attrs : list (string * pyobj))
  : instance :=
  {| cls := user_class name;
     repr_name_override := None;
     repr_args_override := None;
     slots := [];
     slot_store := [];
     dict := Some attrs |}.

(** An instance of a subclass whose own [__repr_args__] returns [entries]. *)
Definition custom_instance (name : string) (entries : ReprArgs) : instance :=
  {| cls := user_class name;
     repr_name_override := None;
     repr_args_override := Some (Ok entries);
     slots := [];
     slot_store := [];
     dict := Some [] |}.

(** An instance of [class name(Representation)] that declares [__slots__]. *)
Definition slotted_instance (name : string)
  (store : list (string * option pyobj)) : instance :=
  {| cls := user_class name;
     repr_name_override := None;
     repr_args_override := None;
     slots := map fst store;
     slot_store := store;
     dict := None |}.

(** [Foo] whose [__repr_args__] returns [[("a", 1), (None, "x")]]. *)
Definition foo_a1_x : instance :=
  custom_instance "Foo" [(Some "a", PyInt 1); (None, PyStr "x")].

(** [Foo] with [a = 1] and [b = None]. *)
Definition foo_a1_bNone : instance :=
  plain_instance "Foo" [("a", PyInt 1); ("b", PyNone)].

(** [Foo] with [a = 0], [b = False] and [c = '']. *)
Definition foo_falsy : instance :=
  plain_instance "Foo" [("a", PyInt 0); ("b", PyBool false); ("c", PyStr "")].

(** [Foo] with no attribute. *)
Definition foo_empty : instance := plain_instance "Foo" [].

(** [Foo] whose [__repr_args__] returns [[("", 7)]]. *)
Definition foo_unnamed : instance :=
  custom_instance "Foo" [(Some "", PyInt 7)].

(** [class Bare(Representation): __slots__ = ()]: no slot and no [__dict__]. *)
Definition bare : instance := slotted_instance "Bare" [].

Definition int_type : pyobj := PyType (builtin_class "int").
Definition str_type : pyobj := PyType (builtin_class "str").

Definition typing_class (name : string) : class_info :=
  {| cls_module := "typing"; cls_qualname := name; cls_name := name |}.

(** [typing.List[int]] *)
Definition List_int_alias : typing_object :=
  {| typing_cls := typing_class "_GenericAlias";
     with_args := true;
     get_origin_of := Some (other_origin "list");
     get_args_of := [int_type];
     qualname_of := Some "List";
     repr_of := Ok "typing.List[int]" |}.

Definition List_int : pyobj := PyTyping List_int_alias.

(** [typing.Union[int, str]] *)
Definition Union_int_str_alias : typing_object :=
  {| typing_cls := typing_class "_UnionGenericAlias";
     with_args := true;
     get_origin_of := Some typing_Union;
     get_args_of := [int_type; str_type];
     qualname_of := Some "Union";
     repr_of := Ok "typing.Union[int, str]" |}.

Definition Union_int_str : pyobj := PyTyping Union_int_str_alias.

(** [typing.Literal[1, 'x']] *)
Definition Literal_1_x_alias : typing_object :=
  {| typing_cls := typing_class "_LiteralGenericAlias";
     with_args := true;
     get_origin_of := Some typing_Literal;
     get_args_of := [PyInt 1; PyStr "x"];
     qualname_of := Some "Literal";
     repr_of := Ok "typing.Literal[1, 'x']" |}.

Definition Literal_1_x : pyobj := PyTyping Literal_1_x_alias.

(** [MyAlias[int]] for [type MyAlias[T] = list[T]]: a generic alias whose
    origin, a [TypeAliasType], has no [__qualname__]. *)
Definition MyAlias_int_alias : typing_object :=
  {| typing_cls := {| cls_module := "types";
                      cls_qualname := "GenericAlias";
                      cls_name := "GenericAlias" |};
     with_args := true;
     get_origin_of := Some (other_origin "MyAlias");
     get_args_of := [int_type];
     qualname_of := None;
     repr_of := Ok "MyAlias[int]" |}.

Definition MyAlias_int : pyobj := PyTyping MyAlias_int_alias.

(** [typing.Annotated[int, Bare()]]; its own [repr] asks for [repr(Bare())]. *)
Definition Annotated_int_bare_alias : typing_object :=
  {| typing_cls := typing_class "_AnnotatedAlias";
     with_args := true;
     get_origin_of := Some (other_origin "Annotated");
     get_args_of := [int_type; PyInstance bare];
     qualname_of := Some "Annotated";
     repr_of := Raise AttributeError |}.

Definition Annotated_int_bare : pyobj := PyTyping Annotated_int_bare_alias.

(** [def foo(): ...] *)
Definition foo_function : pyobj := PyFunction "foo" "foo" 140234866205600.

(** The identity as the formatter of the pretty printer. *)
Definition fmt_id (v : pyobj) : pyobj := v.

(** Two callers on one object: each starts a generator, and they take their
    tokens in turn, with a debug string asked before and after. *)
Definition two_callers : list call :=
  [call_pretty; call_repr; call_pretty]
    ++ flat_map (fun _ => [call_next 0; call_next 1]) (seq 0 12)
    ++ [call_repr].

(** ** Notions used to state further properties *)

(** [x] is [obj] itself or one of the arguments inside it, at any depth. *)
Inductive nested_in : pyobj -> pyobj -> Prop :=
| nested_here (obj : pyobj) : nested_in obj obj
| nested_arg (x arg obj : pyobj) :
    In arg (get_args obj) -> nested_in x arg -> nested_in x obj.

(** The entry has a name, be it the empty one. *)
Definition is_named (e : option string * pyobj) : bool :=
  match fst e with
  | Some _ => true
  | None => false
  end.

(** [class Point(Representation): __slots__ = ('x',)] with [x = 1], and a
    subclass without slots that adds [y = 2] in its [__dict__]: the inherited
    [__slots__] is the one [getattr] finds. *)
Definition point_with_dict : instance :=
  {| cls := user_class "Point3";
     repr_name_override := None;
     repr_args_override := None;
     slots := ["x"];
     slot_store := [("x", Some (PyInt 1))];
     dict := Some [("y", PyInt 2)] |}.

(** [typing.List], the bare alias: not parameterized, no union. *)
Definition List_bare_alias : typing_object :=
  {| typing_cls := typing_class "_SpecialGenericAlias";
     with_args := false;
     get_origin_of := Some (other_origin "list");
     get_args_of := [];
     qualname_of := Some "List";
     repr_of := Ok "typing.List" |}.

(** [x] is [v] itself or a value of one of the entries [__repr_args__] gives
    inside it, at any depth. *)
Inductive held_in : pyobj -> pyobj -> Prop :=
| held_here (v : pyobj) : held_in v v
| held_entry (x w : pyobj) (o : instance) (args : ReprArgs) (a : option string) :
    __repr_args__ o = Ok args -> In (a, w) args -> held_in x w ->
    held_in x (PyInstance o).

(** [class Outer(Representation)] whose [__repr_args__] returns
    [[("inner", Bare())]]. *)
Definition outer_of_bare : instance :=
  custom_instance "Outer" [(Some "inner", PyInstance bare)].

(** * Properties *)

(** ** The recursion of repr and display_as_type *)

Lemma mapM_ext (A B : Type) (f g : A -> result B) (xs : list A) :
  (forall x, In x xs -> f x = g x) -> mapM f xs = mapM g xs.
Proof.
  induction xs as [|x xs IH]; intros Hfg; simpl; [reflexivity|].
  rewrite (Hfg x (or_introl eq_refl)).
  rewrite IH; [reflexivity|].
  intros y Hy. apply Hfg. now right.
Qed.

Lemma list_max_map_ge (A : Type) (f : A -> nat) (x : A) (l : list A) :
  In x l -> f x <= list_max (map f l).
Proof.
  induction l as [|y l IH]; simpl; intros Hin; [contradiction|].
  destruct Hin as [->|Hin]; [lia|].
  specialize (IH Hin). lia.
Qed.

Lemma depth_get_args (t : typing_object) (x : pyobj) :
  In x (get_args_of t) -> depth x < depth (PyTyping t).
Proof.
  intros Hin. simpl.
  pose proof (list_max_map_ge depth x (get_args_of t) Hin). lia.
Qed.

Lemma assoc_In (V : Type) (key : string) (l : list (string * V)) (v : V) :
  assoc key l = Some v -> exists k, In (k, v) l.
Proof.
  unfold assoc. destruct (find _ l) as [[k w]|] eqn:Hfind; [|discriminate].
  intros [= <-]. exists k. now apply find_some in Hfind.
Qed.

Lemma depth_getattr (o : instance) (s : string) (v : pyobj) :
  getattr o s = Ok v -> depth v < depth (PyInstance o).
Proof.
  unfold getattr. intros Hget.
  destruct (assoc s (slot_store o)) as [[w|]|] eqn:Hslot.
  - injection Hget as ->.
    destruct (assoc_In _ _ Hslot) as [k Hin].
    pose proof (list_max_map_ge
                  (fun e : string * option pyobj =>
                     match snd e with Some x => depth x | None => 0 end)
                  _ _ Hin) as Hle.
    simpl in Hle |- *. lia.
  - discriminate.
  - destruct (dict o) as [d|] eqn:Hdict; [|discriminate].
    destruct (assoc s d) as [w|] eqn:Hd; [|discriminate].
    injection Hget as ->.
    destruct (assoc_In _ _ Hd) as [k Hin].
    pose proof (list_max_map_ge (fun e : string * pyobj => depth (snd e))
                  _ _ Hin) as Hle.
    simpl in Hle |- *. rewrite ?Hdict. lia.
Qed.

Lemma depth_attrs_comprehension (o : instance) (names : list string) :
  forall args, attrs_comprehension o names = Ok args ->
  forall e, In e args -> depth (snd e) < depth (PyInstance o).
Proof.
  induction names as [|s names IH]; simpl; intros args Hargs e Hin.
  - injection Hargs as <-. contradiction.
  - destruct (getattr o s) as [cond|] eqn:Hget; simpl in Hargs; [|discriminate].
    destruct (is_not_None cond).
    + destruct (attrs_comprehension o names) as [tail|]; simpl in Hargs;
        [|discriminate].
      injection Hargs as <-.
      destruct Hin as [<-|Hin].
      * simpl. now apply depth_getattr with s.
      * now apply (IH tail).
    + now apply (IH args).
Qed.

Lemma depth_repr_args (o : instance) (args : ReprArgs) :
  __repr_args__ o = Ok args ->
  forall e, In e args -> depth (snd e) < depth (PyInstance o).
Proof.
  cbn [__repr_args__ instance_Representable].
  destruct (repr_args_override o) as [r|] eqn:Hover.
  - intros -> e Hin.
    pose proof (list_max_map_ge (fun e : option string * pyobj => depth (snd e))
                  _ _ Hin) as Hle.
    simpl in Hle |- *. rewrite ?Hover. lia.
  - unfold Representation__repr_args__.
    destruct (attrs_names_of o) as [names|]; simpl bind; [|discriminate].
    apply depth_attrs_comprehension.
Qed.

Lemma repr_entry_ext (f g : pyobj -> result string) (e : option string * pyobj) :
  f (snd e) = g (snd e) -> repr_entry f e = repr_entry g e.
Proof.
  destruct e as [a v]; simpl. now intros ->.
Qed.

(** [__repr__] asks its [repr] argument about the values of the entries only. *)
Lemma __repr_str___ext (Self : Type) (R : Representable Self)
  (f g : pyobj -> result string) (self : Self) (join_str : string) :
  (forall args, __repr_args__ self = Ok args ->
     forall e, In e args -> f (snd e) = g (snd e)) ->
  __repr_str__ f self join_str = __repr_str__ g self join_str.
Proof.
  intros Hfg. unfold __repr_str__.
  destruct (__repr_args__ self) as [args|] eqn:Hargs; simpl; [|reflexivity].
  rewrite (mapM_ext (repr_entry f) (repr_entry g) args); [reflexivity|].
  intros e Hin. apply repr_entry_ext. now apply (Hfg args).
Qed.

Lemma repr_upto_agree :
  forall n m v, depth v <= n -> depth v <= m -> repr_upto n v = repr_upto m v.
Proof.
  induction n as [|n IH]; intros m v Hn Hm;
    destruct m as [|m]; destruct v; try reflexivity;
    simpl in Hn, Hm; try lia.
  simpl. unfold __repr__. f_equal.
  apply __repr_str___ext.
  intros args Hargs e Hin.
  pose proof (depth_repr_args o Hargs e Hin) as Hlt.
  apply IH; simpl in Hlt, Hm |- *; lia.
Qed.

(** The debug string of an instance is [Representation.__repr__] with the
    built-in [repr] on the attribute values. *)
Lemma repr_PyInstance (o : instance) :
  repr (PyInstance o) = __repr__ repr o.
Proof.
  unfold repr at 1.
  change (depth (PyInstance o)) with (S (pred (depth (PyInstance o)))).
  simpl repr_upto. unfold __repr__. f_equal.
  apply __repr_str___ext.
  intros args Hargs e Hin.
  pose proof (depth_repr_args o Hargs e Hin) as Hlt.
  unfold repr. apply repr_upto_agree; simpl in Hlt |- *; lia.
Qed.

Lemma str_PyInstance (o : instance) :
  str (PyInstance o) = __str__ repr o.
Proof. reflexivity. Qed.

(** No call of the built-in [repr] exceeds the bound on the nesting. *)
Lemma repr_upto_repr (n : nat) (v : pyobj) :
  depth v <= n -> repr_upto n v = repr v.
Proof.
  intros Hn. unfold repr. now apply repr_upto_agree.
Qed.

Lemma get_args_type_expression_of (obj x : pyobj) :
  In x (get_args (type_expression_of obj)) -> In x (get_args obj).
Proof.
  unfold type_expression_of. destruct obj; simpl; try contradiction.
  trivial.
Qed.

Lemma display_as_type_body_ext (f g : pyobj -> result string) (obj : pyobj) :
  (forall x, In x (get_args obj) -> f x = g x) ->
  display_as_type_body f obj = display_as_type_body g obj.
Proof.
  intros Hfg. unfold display_as_type_body.
  assert (Hmap : mapM f (get_args (type_expression_of obj))
                 = mapM g (get_args (type_expression_of obj))).
  { apply mapM_ext. intros x Hin. apply Hfg.
    now apply get_args_type_expression_of. }
  rewrite Hmap. reflexivity.
Qed.

Lemma depth_in_get_args (obj x : pyobj) :
  In x (get_args obj) -> depth x < depth obj.
Proof.
  destruct obj; simpl; try contradiction. apply depth_get_args.
Qed.

Lemma display_upto_agree :
  forall n m obj, depth obj < n -> depth obj < m ->
                  display_upto n obj = display_upto m obj.
Proof.
  induction n as [|n IH]; intros m obj Hn Hm; [lia|].
  destruct m as [|m]; [lia|].
  simpl. apply display_as_type_body_ext.
  intros x Hin. pose proof (depth_in_get_args obj x Hin).
  apply IH; lia.
Qed.

(** [display_as_type] satisfies the equation of its definition in the
    source. *)
Lemma display_as_type_unfold (obj : pyobj) :
  display_as_type obj = display_as_type_body display_as_type obj.
Proof.
  unfold display_as_type at 1. simpl display_upto.
  apply display_as_type_body_ext.
  intros x Hin. pose proof (depth_in_get_args obj x Hin).
  unfold display_as_type. apply display_upto_agree; lia.
Qed.

(** ** The generators *)

Section GeneratorFacts.
Context {Self : Type} `{Representable Self}.
Context {F : Type}.
Variable fmt : pyobj -> F.
Variable self : Self.

Lemma pretty_loop_rest (rest : ReprArgs) :
  exists t g,
    pretty_loop fmt rest = (Yielded t, g) /\
    pretty_entries fmt rest = t :: fst (pretty_rest fmt self g) /\
    snd (pretty_rest fmt self g) = Exhausted.
Proof.
  destruct rest as [|[[n|] value] rest]; simpl; eexists; eexists;
    (split; [reflexivity|]); split; reflexivity.
Qed.

(** One step of the generator takes the head off what it has still to
    yield; the end leaves nothing. *)
Lemma pretty_next_rest (g : pretty_frame) :
  match pretty_next fmt self g with
  | (Yielded t, g') =>
      pretty_rest fmt self g
      = (t :: fst (pretty_rest fmt self g'), snd (pretty_rest fmt self g'))
  | (StopIteration, g') =>
      pretty_rest fmt self g = ([], Exhausted) /\ g' = pretty_finished
  | (Raised e, g') =>
      pretty_rest fmt self g = ([], Failed e) /\ g' = pretty_finished
  end.
Proof.
  destruct g; simpl; try (split; reflexivity); try reflexivity.
  - destruct (__repr_args__ self) as [args|e]; simpl; [|split; reflexivity].
    destruct (pretty_loop_rest args) as (t & g & -> & -> & ->). reflexivity.
  - destruct (pretty_loop_rest rest) as (t & g & -> & -> & ->). reflexivity.
Qed.

(** Consuming the generator ends, and gives the closed form. *)
Lemma consume_pretty_rest :
  forall count g,
    List.length (fst (pretty_rest fmt self g)) < count ->
    consume (pretty_next fmt self) count g = pretty_rest fmt self g.
Proof.
  induction count as [|count IH]; intros g Hlen; [lia|].
  simpl. pose proof (pretty_next_rest g) as Hstep.
  destruct (pretty_next fmt self g) as [[t| |e] g'].
  - rewrite Hstep in Hlen |- *. simpl in Hlen.
    rewrite IH by lia. now destruct (pretty_rest fmt self g').
  - now destruct Hstep as [-> _].
  - now destruct Hstep as [-> _].
Qed.

Lemma consume_pretty (count : nat) :
  List.length (fst (pretty_tokens fmt self)) < count ->
  consume (pretty_next fmt self) count (__pretty__ self)
  = pretty_tokens fmt self.
Proof. apply consume_pretty_rest. Qed.

Lemma consume_rich_loop :
  forall rest count,
    List.length rest < count ->
    consume (rich_next self) count (rich_in_loop rest)
    = (map rich_entry rest, Exhausted).
Proof.
  induction rest as [|[[n|] v] rest IH]; intros count Hlen;
    (destruct count as [|count]; [simpl in Hlen; lia|]);
    simpl in Hlen |- *; try reflexivity;
    rewrite IH by lia; reflexivity.
Qed.

Lemma consume_rich (count : nat) :
  List.length (fst (rich_items self)) + 1 < count ->
  consume (rich_next self) count (__rich_repr__ self) = rich_items self.
Proof.
  unfold rich_items. intros Hlen.
  destruct count as [|count]; [lia|]. simpl.
  destruct (__repr_args__ self) as [args|e]; [|reflexivity].
  simpl in Hlen. rewrite length_map in Hlen.
  destruct args as [|[[n|] v] rest]; simpl in Hlen |- *; try reflexivity;
    rewrite consume_rich_loop by lia; reflexivity.
Qed.

End GeneratorFacts.

(** ** Callers *)

Section CallerFacts.
Context {Self : Type} `{Representable Self}.
Context {F : Type}.
Variable fmt : pyobj -> F.
Variable repr_of_value : pyobj -> result string.

Lemma nth_set_nth (gs : list pretty_frame) (i j : nat) (g : pretty_frame) :
  i < List.length gs ->
  nth j (set_nth i g gs) pretty_created
  = if Nat.eqb j i then g else nth j gs pretty_created.
Proof.
  revert i j. induction gs as [|g0 gs IH]; intros i j Hi; simpl in Hi; [lia|].
  destruct i as [|i]; destruct j as [|j]; simpl; try reflexivity.
  apply IH. lia.
Qed.

Lemma frame_at_created (w : world Self) (i : nat) :
  nth i (generators w ++ [pretty_created]) pretty_created = frame_at w i.
Proof.
  unfold frame_at.
  destruct (Nat.lt_ge_cases i (List.length (generators w))) as [Hlt|Hge].
  - now apply app_nth1.
  - rewrite app_nth2 by lia. rewrite (nth_overflow (generators w)) by lia.
    destruct (i - List.length (generators w)) as [|[|k]]; reflexivity.
Qed.

Lemma exec_invariant (c : call) (w : world Self) :
  let (o, w') := exec fmt repr_of_value c w in
  the_object w' = the_object w /\
  (forall r, o = Returned r -> r = __repr__ repr_of_value (the_object w)) /\
  (forall i, rest_at fmt w i = (yielded_by i [o] ++ rest_at fmt w' i)%list) /\
  (forall i, ended i [o] = true -> rest_at fmt w' i = []).
Proof.
  destruct c as [| |j]; simpl.
  - repeat split; try discriminate. now intros r [= <-].
  - repeat split; try discriminate.
    intros i. unfold rest_at, frame_at. simpl.
    unfold __pretty__. now rewrite frame_at_created.
  - destruct (nth_error (generators w) j) as [g|] eqn:Hnth;
      [|repeat split; discriminate].
    pose proof (pretty_next_rest fmt (the_object w) g) as Hstep.
    assert (Hj : j < List.length (generators w)).
    { apply nth_error_Some. now rewrite Hnth. }
    assert (Hg : frame_at w j = g).
    { unfold frame_at. now apply nth_error_nth. }
    destruct (pretty_next fmt (the_object w) g) as [o g'].
    split; [reflexivity|]. split; [discriminate|].
    assert (Hat : forall i,
               frame_at {| the_object := the_object w;
                           generators := set_nth j g' (generators w) |} i
               = if Nat.eqb i j then g' else frame_at w i).
    { intros i. unfold frame_at. simpl. now apply nth_set_nth. }
    split.
    + intros i. unfold rest_at. rewrite Hat. simpl the_object.
      destruct (Nat.eqb_spec i j) as [->|Hne].
      * rewrite Hg. destruct o as [t| |e]; simpl.
        -- rewrite ?Nat.eqb_refl. now rewrite Hstep.
        -- destruct Hstep as [-> ->]. reflexivity.
        -- destruct Hstep as [-> ->]. reflexivity.
      * destruct o as [t| |e]; simpl; reflexivity.
    + intros i. unfold rest_at. rewrite Hat. simpl the_object.
      destruct o as [t| |e]; simpl; try discriminate;
        rewrite orb_false_r; intros ->; destruct Hstep as [_ ->]; reflexivity.
Qed.

Lemma yielded_by_cons (i : nat) (o : observation F) (os : list (observation F)) :
  yielded_by i (o :: os) = (yielded_by i [o] ++ yielded_by i os)%list.
Proof.
  destruct o as [r|j|j [t| |e]|]; simpl; try reflexivity.
  destruct (Nat.eqb i j); reflexivity.
Qed.

Lemma ended_cons (i : nat) (o : observation F) (os : list (observation F)) :
  ended i (o :: os) = ended i [o] || ended i os.
Proof.
  destruct o as [r|j|j [t| |e]|]; simpl; try reflexivity;
    now rewrite orb_false_r.
Qed.

Lemma returned_cons (o : observation F) (os : list (observation F)) (r : result string) :
  In r (returned (o :: os)) -> o = Returned r \/ In r (returned os).
Proof.
  destruct o as [r0|j|j out|]; simpl; auto.
  intros [->|Hin]; auto.
Qed.

Lemma run_invariant :
  forall calls w,
    let (obs, w') := run fmt repr_of_value calls w in
    the_object w' = the_object w /\
    (forall r, In r (returned obs) -> r = __repr__ repr_of_value (the_object w)) /\
    (forall i, rest_at fmt w i = (yielded_by i obs ++ rest_at fmt w' i)%list) /\
    (forall i, ended i obs = true -> rest_at fmt w' i = []).
Proof.
  induction calls as [|c calls IH]; intros w; simpl.
  - repeat split; try contradiction; try discriminate.
  - pose proof (exec_invariant c w) as Hexec.
    destruct (exec fmt repr_of_value c w) as [o w1].
    destruct Hexec as (Hobj1 & Hret1 & Hrest1 & Hend1).
    specialize (IH w1).
    destruct (run fmt repr_of_value calls w1) as [os w'].
    destruct IH as (Hobj & Hret & Hrest & Hend).
    split; [congruence|]. split; [|split].
    + intros r Hin. apply returned_cons in Hin.
      destruct Hin as [->|Hin]; [now apply Hret1|].
      rewrite <- Hobj1. now apply Hret.
    + intros i. rewrite yielded_by_cons, <- app_assoc, <- Hrest. apply Hrest1.
    + intros i. rewrite ended_cons. intros Hor.
      apply orb_true_iff in Hor. destruct Hor as [Ho|Hos]; [|now apply Hend].
      specialize (Hend1 i Ho). specialize (Hrest i).
      rewrite Hend1 in Hrest. symmetry in Hrest.
      now apply app_eq_nil in Hrest.
Qed.
End CallerFacts.

(** ** Representation: the strings *)

Lemma __repr_str___entries (Self : Type) (R : Representable Self)
  (rp : pyobj -> result string) (self : Self) (join_str : string)
  (args : ReprArgs) (parts : list string) :
  __repr_args__ self = Ok args ->
  mapM (repr_entry rp) args = Ok parts ->
  __repr_str__ rp self join_str = Ok (join join_str parts).
Proof.
  intros Hargs Hparts. unfold __repr_str__. now rewrite Hargs; simpl; rewrite Hparts.
Qed.

(** C1. The debug string of a Representation object is its display name, an
    opening parenthesis, the rendered entries joined with a comma and a space,
    and a closing parenthesis.  The entries a=1 and an unnamed 'x' on class Foo
    give Foo(a=1, 'x').  Without entries the human string is empty and the
    debug string is the display name, by default the class name, followed by
    an empty pair of parentheses. *)
Theorem C1_repr_is_name_and_joined_entries (o : instance) :
  (forall (Self : Type) (R : Representable Self) (rp : pyobj -> result string)
          (self : Self),
      __repr__ rp self
      = (s <- __repr_str__ rp self ", " ;;
         Ok (__repr_name__ self ++ "(" ++ s ++ ")")))
  /\ repr (PyInstance o)
     = (s <- __repr_str__ repr o ", " ;; Ok (__repr_name__ o ++ "(" ++ s ++ ")"))
  /\ (forall args parts,
         __repr_args__ o = Ok args ->
         mapM (repr_entry repr) args = Ok parts ->
         repr (PyInstance o)
         = Ok (__repr_name__ o ++ "(" ++ join ", " parts ++ ")"))
  /\ repr (PyInstance foo_a1_x) = Ok "Foo(a=1, 'x')"
  /\ (__repr_args__ o = Ok [] ->
      str (PyInstance o) = Ok ""
      /\ repr (PyInstance o) = Ok (__repr_name__ o ++ "()")
      /\ (repr_name_override o = None ->
          repr (PyInstance o) = Ok (cls_name (cls o) ++ "()"))).
Proof.
  split; [reflexivity|].
  split; [apply repr_PyInstance|].
  split.
  { intros args parts Hargs Hparts. rewrite repr_PyInstance. unfold __repr__.
    now rewrite (@__repr_str___entries _ _ repr o ", " args parts Hargs Hparts). }
  split; [reflexivity|].
  intros Hempty.
  assert (Hstr : forall join_str, __repr_str__ repr o join_str = Ok "").
  { intros join_str.
    now apply (@__repr_str___entries _ _ repr o join_str [] [] Hempty). }
  split; [rewrite str_PyInstance; apply Hstr|].
  assert (Hrepr : repr (PyInstance o) = Ok (__repr_name__ o ++ "()")).
  { rewrite repr_PyInstance. unfold __repr__. now rewrite Hstr. }
  split; [exact Hrepr|].
  intros Hname. rewrite Hrepr. simpl. now rewrite Hname.
Qed.

Lemma C1_repr_is_name_and_joined_entries_witness :
  str (PyInstance foo_empty) = Ok "" /\ repr (PyInstance foo_empty) = Ok "Foo()".
Proof.
  destruct (C1_repr_is_name_and_joined_entries foo_empty)
    as (_ & _ & _ & _ & Hempty).
  destruct (Hempty eq_refl) as (Hstr & _ & Hrepr).
  split; [exact Hstr | exact (Hrepr eq_refl)].
Defined.

(** ** Representation.__repr_args__ *)

Lemma attrs_comprehension_flat_map (self : instance) (names : list string) :
  forall entries,
    attrs_comprehension self names = Ok entries ->
    entries = flat_map (kept_entry self) names.
Proof.
  induction names as [|s names IH]; simpl; intros entries Hentries.
  - now injection Hentries as <-.
  - unfold kept_entry at 1.
    destruct (getattr self s) as [v|] eqn:Hget; simpl in Hentries; [|discriminate].
    destruct (is_not_None v).
    + destruct (attrs_comprehension self names) as [tail|]; simpl in Hentries;
        [|discriminate].
      injection Hentries as <-. simpl. f_equal. now apply IH.
    + simpl. now apply IH.
Qed.

Lemma is_not_None_true (v : pyobj) : is_not_None v = true <-> v <> PyNone.
Proof.
  destruct v; simpl; split; intros Hv; try reflexivity; try discriminate.
  now contradiction Hv.
Qed.

Lemma in_kept_entry (self : instance) (s : string) (a : option string) (v : pyobj) :
  In (a, v) (kept_entry self s) <->
  a = Some s /\ getattr self s = Ok v /\ v <> PyNone.
Proof.
  unfold kept_entry. destruct (getattr self s) as [w|e].
  - destruct (is_not_None w) eqn:Hw; simpl.
    + apply is_not_None_true in Hw. split.
      * intros [[= <- <-]|[]]. auto.
      * intros (-> & [= ->] & _). now left.
    + split; [contradiction|]. intros (_ & [= ->] & Hv).
      apply is_not_None_true in Hv. congruence.
  - simpl. split; [contradiction|]. now intros (_ & Hget & _).
Qed.

(** C2. The default [__repr_args__] omits every attribute whose value is None
    and keeps every other one, in the order of the names: an object with
    a = 1 and b = None renders as Foo(a=1), and the values 0, False and the
    empty string are kept. *)
Theorem C2_default_repr_args_omit_None (self : instance) (entries : ReprArgs)
  (Hdefault : repr_args_override self = None)
  (Hentries : __repr_args__ self = Ok entries) :
  (exists names,
      attrs_names_of self = Ok names
      /\ entries = flat_map (kept_entry self) names
      /\ (forall s v, In s names -> getattr self s = Ok v -> v <> PyNone ->
                      In (Some s, v) entries)
      /\ (forall s, In s names -> getattr self s = Ok PyNone ->
                    forall a, ~ In (a, PyNone) entries))
  /\ (forall a v, In (a, v) entries ->
                  v <> PyNone /\ exists s, a = Some s /\ getattr self s = Ok v)
  /\ __repr_args__ foo_a1_bNone = Ok [(Some "a", PyInt 1)]
  /\ repr (PyInstance foo_a1_bNone) = Ok "Foo(a=1)"
  /\ __repr_args__ foo_falsy
     = Ok [(Some "a", PyInt 0); (Some "b", PyBool false); (Some "c", PyStr "")]
  /\ repr (PyInstance foo_falsy) = Ok "Foo(a=0, b=False, c='')".
Proof.
  cbn [__repr_args__ instance_Representable] in Hentries.
  rewrite Hdefault in Hentries. unfold Representation__repr_args__ in Hentries.
  destruct (attrs_names_of self) as [names|] eqn:Hnames; simpl in Hentries;
    [|discriminate].
  apply attrs_comprehension_flat_map in Hentries.
  assert (Hin : forall a v, In (a, v) entries ->
                  v <> PyNone /\ exists s, a = Some s /\ getattr self s = Ok v).
  { intros a v Hav. rewrite Hentries in Hav. apply in_flat_map in Hav.
    destruct Hav as (s & _ & Hkept). apply in_kept_entry in Hkept.
    destruct Hkept as (-> & Hget & Hv). split; [exact Hv|]. now exists s. }
  split.
  { exists names. split; [reflexivity|]. split; [exact Hentries|]. split.
    - intros s v Hs Hget Hv. rewrite Hentries. apply in_flat_map.
      exists s. split; [exact Hs|]. now apply in_kept_entry.
    - intros s _ _ a Hav. now destruct (Hin a PyNone Hav) as [Hv _]. }
  split; [exact Hin|].
  repeat split; reflexivity.
Qed.

Lemma C2_default_repr_args_omit_None_witness :
  (In (Some "a", PyInt 1) [(Some "a", PyInt 1)])
  /\ ~ In (Some "b", PyNone) [(Some "a", PyInt 1)]
  /\ repr (PyInstance foo_a1_bNone) = Ok "Foo(a=1)".
Proof.
  destruct (@C2_default_repr_args_omit_None
              foo_a1_bNone [(Some "a", PyInt 1)] eq_refl eq_refl)
    as ((names & Hnames & _ & Hkept & Homit) & _ & _ & Hrepr & _).
  injection Hnames as <-.
  split; [|split].
  - apply (Hkept "a" (PyInt 1)); [now left | reflexivity | discriminate].
  - apply (Homit "b"); [right; now left | reflexivity].
  - exact Hrepr.
Defined.

(** ** PlainRepr *)

Lemma PlainRepr_namespace_other (name : string) :
  name <> "__repr__" -> PlainRepr_namespace name = None.
Proof.
  intros Hname. unfold PlainRepr_namespace.
  destruct (String.eqb_spec name "__repr__"); [contradiction|reflexivity].
Qed.

(** C3. The debug form of PlainRepr(s) is s itself, without quotes and
    without escapes: PlainRepr("abc") gives abc where the plain string gives
    'abc', and a backslash stays single.  Every other method is the one of
    str. *)
Theorem C3_PlainRepr_repr_is_its_text (s : string) :
  repr (PlainRepr s) = Ok s
  /\ call_method (PlainRepr s) "__repr__" [] = Ok (PyStr s)
  /\ repr (PlainRepr "abc") = Ok "abc"
  /\ repr (PyStr "abc") = Ok "'abc'"
  /\ repr (PlainRepr "a\b") = Ok "a\b"
  /\ repr (PyStr "a\b") = Ok "'a\\b'"
  /\ str (PlainRepr s) = str (PyStr s)
  /\ (forall name, name <> "__repr__" ->
                   lookup_method mro_PlainRepr name = lookup_method mro_str name)
  /\ (forall name args, name <> "__repr__" ->
        call_method (PlainRepr s) name args = call_method (PyStr s) name args).
Proof.
  repeat (split; [reflexivity|]).
  assert (Hlookup : forall name, name <> "__repr__" ->
            lookup_method mro_PlainRepr name = lookup_method mro_str name).
  { intros name Hname. simpl. now rewrite PlainRepr_namespace_other. }
  split; [exact Hlookup|].
  intros name args Hname. unfold call_method. now rewrite Hlookup.
Qed.

Lemma C3_PlainRepr_repr_is_its_text_witness :
  call_method (PlainRepr "abc") "__len__" [] = Ok (PyInt 3)
  /\ call_method (PlainRepr "abc") "__add__" [PyStr "d"] = Ok (PyStr "abcd").
Proof.
  destruct (C3_PlainRepr_repr_is_its_text "abc")
    as (_ & _ & _ & _ & _ & _ & _ & _ & Hcall).
  split.
  - rewrite (Hcall "__len__" []); [reflexivity | discriminate].
  - rewrite (Hcall "__add__" [PyStr "d"]); [reflexivity | discriminate].
Defined.

(** ** display_as_type *)

(** The function on an object of the typing machinery: the three branches
    such an object can take. *)
Lemma display_as_type_PyTyping (t : typing_object) :
  display_as_type (PyTyping t)
  = if origin_is_union (get_origin_of t) then
      parts <- mapM display_as_type (get_args_of t) ;;
      Ok ("Union[" ++ join ", " parts ++ "]")
    else if with_args t then
      parts <- (if origin_is_Literal (get_origin_of t)
                then mapM repr (get_args_of t)
                else mapM display_as_type (get_args_of t)) ;;
      try_except_AttributeError
        (qualname <- getattr__qualname__ (PyTyping t) ;;
         Ok (qualname ++ "[" ++ join ", " parts ++ "]"))
        (str (PyTyping t))
    else
      r <- repr (PyTyping t) ;;
      Ok (replace "typing_extensions." "" (replace "typing." "" r)).
Proof.
  rewrite display_as_type_unfold. reflexivity.
Qed.

(** C4. Before it looks at the kind of type expression, display_as_type
    answers, in this order: the declared name of a function, the three dots
    for the ellipsis, the debug string of an instance of Representation, the
    string form of a TypeAliasType. *)
Theorem C4_display_as_type_first_tests (obj : pyobj) :
  (isinstance_FunctionType obj = true ->
   display_as_type obj = getattr__name__ obj)
  /\ (isinstance_FunctionType obj = false -> is_Ellipsis obj = true ->
      display_as_type obj = Ok "...")
  /\ (isinstance_FunctionType obj = false -> is_Ellipsis obj = false ->
      isinstance_Representation obj = true ->
      display_as_type obj = repr obj)
  /\ (isinstance_FunctionType obj = false -> is_Ellipsis obj = false ->
      isinstance_Representation obj = false ->
      isinstance_TypeAliasType obj = true ->
      display_as_type obj = str obj)
  /\ (isinstance_FunctionType obj || is_Ellipsis obj
      || isinstance_Representation obj || isinstance_TypeAliasType obj = true ->
      forall rec, display_as_type_body rec obj = display_as_type obj)
  /\ (forall name qualname addr,
         display_as_type (PyFunction name qualname addr) = Ok name)
  /\ display_as_type PyEllipsis = Ok "..."
  /\ (forall o, display_as_type (PyInstance o) = repr (PyInstance o))
  /\ (forall name, display_as_type (PyTypeAliasType name) = Ok name
                   /\ str (PyTypeAliasType name) = Ok name).
Proof.
  assert (Hbody : isinstance_FunctionType obj || is_Ellipsis obj
                  || isinstance_Representation obj
                  || isinstance_TypeAliasType obj = true ->
                  forall rec, display_as_type_body rec obj = display_as_type obj).
  { intros Hkind rec. rewrite display_as_type_unfold.
    destruct obj; try discriminate Hkind; reflexivity. }
  split; [|split; [|split; [|split; [|split; [exact Hbody|]]]]].
  - intros Hfun. rewrite display_as_type_unfold. unfold display_as_type_body.
    now rewrite Hfun.
  - intros Hfun Hell. rewrite display_as_type_unfold.
    unfold display_as_type_body. now rewrite Hfun, Hell.
  - intros Hfun Hell Hrep. rewrite display_as_type_unfold.
    unfold display_as_type_body. now rewrite Hfun, Hell, Hrep.
  - intros Hfun Hell Hrep Halias. rewrite display_as_type_unfold.
    unfold display_as_type_body. now rewrite Hfun, Hell, Hrep, Halias.
  - split; [intros; now rewrite display_as_type_unfold|].
    split; [reflexivity|].
    split; [intros o; now rewrite display_as_type_unfold|].
    intros name. split; reflexivity.
Qed.

Lemma C4_display_as_type_first_tests_witness :
  display_as_type foo_function = Ok "foo"
  /\ display_as_type (PyInstance foo_a1_x) = Ok "Foo(a=1, 'x')"
  /\ display_as_type (PyTypeAliasType "MyAlias") = Ok "MyAlias".
Proof.
  split; [|split].
  - destruct (C4_display_as_type_first_tests foo_function) as (Hfun & _).
    exact (Hfun eq_refl).
  - destruct (C4_display_as_type_first_tests (PyInstance foo_a1_x))
      as (_ & _ & Hrep & _).
    exact (Hrep eq_refl eq_refl eq_refl).
  - destruct (C4_display_as_type_first_tests (PyTypeAliasType "MyAlias"))
      as (_ & _ & _ & Halias & _).
    exact (Halias eq_refl eq_refl eq_refl eq_refl).
Defined.

(** C5. display_as_type on representative inputs: the class int gives int, as
    every plain class gives its qualified name; List[int] gives List[int];
    the ellipsis gives the three dots; a function named foo gives foo. *)
Theorem C5_display_as_type_examples :
  display_as_type int_type = Ok "int"
  /\ (forall c, display_as_type (PyType c) = Ok (cls_qualname c))
  /\ display_as_type List_int = Ok "List[int]"
  /\ display_as_type PyEllipsis = Ok "..."
  /\ display_as_type foo_function = Ok "foo".
Proof.
  repeat split; reflexivity.
Qed.

Lemma display_as_type_with_args (t : typing_object) :
  origin_is_union (get_origin_of t) = false ->
  with_args t = true ->
  display_as_type (PyTyping t)
  = (parts <- mapM (render_argument t) (get_args_of t) ;; bracketed t parts).
Proof.
  intros Hunion Hwith. rewrite display_as_type_PyTyping, Hunion, Hwith.
  unfold render_argument.
  replace (if origin_is_Literal (get_origin_of t)
           then mapM repr (get_args_of t)
           else mapM display_as_type (get_args_of t))
    with (mapM (if origin_is_Literal (get_origin_of t)
                then repr else display_as_type) (get_args_of t))
    by now destruct (origin_is_Literal (get_origin_of t)).
  destruct (mapM _ (get_args_of t)) as [parts|e]; [|reflexivity].
  simpl. unfold bracketed. now destruct (qualname_of t).
Qed.

(** C6. The arguments of a literal type are rendered by their debug form and
    joined with a comma and a space, never displayed as types: the values 1
    and "x" give 1, 'x', where display_as_type would give int, str. *)
Theorem C6_literal_arguments_by_repr (t : typing_object)
  (Hwith : with_args t = true)
  (Hliteral : get_origin_of t = Some typing_Literal) :
  display_as_type (PyTyping t)
  = (parts <- mapM repr (get_args_of t) ;; bracketed t parts)
  /\ (forall parts qualname,
         mapM repr (get_args_of t) = Ok parts ->
         qualname_of t = Some qualname ->
         display_as_type (PyTyping t)
         = Ok (qualname ++ "[" ++ join ", " parts ++ "]"))
  /\ display_as_type Literal_1_x = Ok "Literal[1, 'x']"
  /\ mapM repr [PyInt 1; PyStr "x"] = Ok ["1"; "'x'"]
  /\ mapM display_as_type [PyInt 1; PyStr "x"] = Ok ["int"; "str"].
Proof.
  assert (Hdisplay : display_as_type (PyTyping t)
                     = (parts <- mapM repr (get_args_of t) ;; bracketed t parts)).
  { rewrite display_as_type_with_args by (rewrite ?Hliteral; trivial).
    unfold render_argument. now rewrite Hliteral. }
  split; [exact Hdisplay|].
  split.
  { intros parts qualname Hparts Hqual. rewrite Hdisplay, Hparts. simpl.
    unfold bracketed. now rewrite Hqual. }
  repeat split; reflexivity.
Qed.

Lemma C6_literal_arguments_by_repr_witness :
  display_as_type Literal_1_x = Ok ("Literal" ++ "[" ++ join ", " ["1"; "'x'"] ++ "]").
Proof.
  exact (proj1 (proj2 (@C6_literal_arguments_by_repr Literal_1_x_alias
                          eq_refl eq_refl))
           ["1"; "'x'"] "Literal" eq_refl eq_refl).
Defined.

(** C7. A union type is displayed as Union, an opening bracket, its member
    types displayed recursively and joined with a comma and a space, and a
    closing bracket: Union[int, str] gives Union[int, str]. *)
Theorem C7_union_members_displayed (t : typing_object)
  (Hunion : origin_is_union (get_origin_of t) = true) :
  display_as_type (PyTyping t)
  = (parts <- mapM display_as_type (get_args_of t) ;;
     Ok ("Union[" ++ join ", " parts ++ "]"))
  /\ (forall parts,
         mapM display_as_type (get_args_of t) = Ok parts ->
         display_as_type (PyTyping t) = Ok ("Union[" ++ join ", " parts ++ "]"))
  /\ display_as_type Union_int_str = Ok "Union[int, str]".
Proof.
  assert (Hdisplay : display_as_type (PyTyping t)
                     = (parts <- mapM display_as_type (get_args_of t) ;;
                        Ok ("Union[" ++ join ", " parts ++ "]"))).
  { now rewrite display_as_type_PyTyping, Hunion. }
  split; [exact Hdisplay|]. split; [|reflexivity].
  intros parts Hparts. now rewrite Hdisplay, Hparts.
Qed.

Lemma C7_union_members_displayed_witness :
  display_as_type Union_int_str = Ok ("Union[" ++ join ", " ["int"; "str"] ++ "]").
Proof.
  exact (proj1 (proj2 (@C7_union_members_displayed Union_int_str_alias eq_refl))
           ["int"; "str"] eq_refl).
Defined.

(** C8. On a parameterized type without a qualified name the missing
    attribute is caught: once the arguments are rendered the function returns
    the string form of the object.  The lookup of the qualified name never
    makes the function raise: an exception leaves this branch only when the
    rendering of an argument raises it, or the string form itself does. *)
Theorem C8_missing_qualname_is_caught (t : typing_object)
  (Hwith : with_args t = true)
  (Hunion : origin_is_union (get_origin_of t) = false) :
  (qualname_of t = None ->
   getattr__qualname__ (PyTyping t) = Raise AttributeError
   /\ display_as_type (PyTyping t)
      = (parts <- mapM (render_argument t) (get_args_of t) ;; str (PyTyping t))
   /\ (forall parts, mapM (render_argument t) (get_args_of t) = Ok parts ->
                     display_as_type (PyTyping t) = str (PyTyping t)))
  /\ (forall parts qualname,
         mapM (render_argument t) (get_args_of t) = Ok parts ->
         qualname_of t = Some qualname ->
         display_as_type (PyTyping t)
         = Ok (qualname ++ "[" ++ join ", " parts ++ "]"))
  /\ (forall e, display_as_type (PyTyping t) = Raise e ->
                mapM (render_argument t) (get_args_of t) = Raise e
                \/ (qualname_of t = None /\ str (PyTyping t) = Raise e))
  /\ display_as_type MyAlias_int = Ok "MyAlias[int]".
Proof.
  pose proof (display_as_type_with_args t Hunion Hwith) as Hdisplay.
  split; [|split; [|split; [|reflexivity]]].
  - intros Hqual.
    assert (Hbr : forall parts, bracketed t parts = str (PyTyping t)).
    { intros parts. unfold bracketed. now rewrite Hqual. }
    split; [simpl; now rewrite Hqual|].
    split.
    + rewrite Hdisplay.
      destruct (mapM (render_argument t) (get_args_of t)); simpl;
        [apply Hbr|reflexivity].
    + intros parts Hparts. rewrite Hdisplay, Hparts. simpl. apply Hbr.
  - intros parts qualname Hparts Hqual. rewrite Hdisplay, Hparts. simpl.
    unfold bracketed. now rewrite Hqual.
  - intros e. rewrite Hdisplay.
    destruct (mapM (render_argument t) (get_args_of t)) as [parts|e'];
      simpl; [|intros [= ->]; now left].
    unfold bracketed. destruct (qualname_of t); [discriminate|].
    intros Hrepr. right. split; [reflexivity|exact Hrepr].
Qed.

Lemma C8_missing_qualname_is_caught_witness :
  display_as_type MyAlias_int = str MyAlias_int
  /\ str MyAlias_int = Ok "MyAlias[int]".
Proof.
  split; [|reflexivity].
  exact (proj2 (proj2 (proj1 (@C8_missing_qualname_is_caught MyAlias_int_alias
                                 eq_refl eq_refl) eq_refl))
           ["int"] eq_refl).
Defined.

(** An exception of the rendering of an argument is not caught: the [try]
    covers the lookup of the qualified name only. *)
Example display_as_type_argument_raises :
  repr (PyInstance bare) = Raise AttributeError
  /\ display_as_type Annotated_int_bare = Raise AttributeError.
Proof. split; reflexivity. Qed.

(** ** Calls do not depend on one another *)

(** C9. On an object that is not mutated, every call of the debug string
    returns the same result, and every generator of [__pretty__] yields the
    same sequence of tokens, however the calls of several callers are
    interleaved: no call changes the object, and a generator advances on its
    own frame only. *)
Theorem C9_calls_keep_no_state (Self : Type) (R : Representable Self)
  (F : Type) (fmt : pyobj -> F) (rp : pyobj -> result string)
  (self : Self) (calls : list call) :
  let start := {| the_object := self; generators := [] |} in
  let obs := fst (run fmt rp calls start) in
  let w := snd (run fmt rp calls start) in
  the_object w = self
  /\ (forall r, In r (returned obs) -> r = __repr__ rp self)
  /\ (forall r1 r2, In r1 (returned obs) -> In r2 (returned obs) -> r1 = r2)
  /\ (forall i, exists rest,
         fst (pretty_tokens fmt self) = (yielded_by i obs ++ rest)%list)
  /\ (forall i, ended i obs = true ->
                yielded_by i obs = fst (pretty_tokens fmt self))
  /\ (forall i j, ended i obs = true -> ended j obs = true ->
                  yielded_by i obs = yielded_by j obs)
  /\ (forall count,
         List.length (fst (pretty_tokens fmt self)) < count ->
         consume (pretty_next fmt self) count (__pretty__ self)
         = pretty_tokens fmt self).
Proof.
  intros start obs w.
  pose proof (run_invariant fmt rp calls start) as Hrun.
  subst obs w. destruct (run fmt rp calls start) as [obs w]. simpl.
  destruct Hrun as (Hobj & Hret & Hrest & Hend).
  assert (Hstart : forall i, rest_at fmt start i = fst (pretty_tokens fmt self)).
  { intros i. unfold rest_at, frame_at. simpl. now destruct i. }
  assert (Hfull : forall i, ended i obs = true ->
                            yielded_by i obs = fst (pretty_tokens fmt self)).
  { intros i Hi. rewrite <- (Hstart i), (Hrest i), (Hend i Hi).
    now rewrite app_nil_r. }
  split; [exact Hobj|].
  split; [exact Hret|].
  split; [intros r1 r2 H1 H2; now rewrite (Hret r1 H1), (Hret r2 H2)|].
  split; [intros i; exists (rest_at fmt w i); now rewrite <- Hrest, Hstart|].
  split; [exact Hfull|].
  split; [intros i j Hi Hj; now rewrite (Hfull i Hi), (Hfull j Hj)|].
  intros count. apply consume_pretty.
Qed.

Lemma C9_calls_keep_no_state_witness :
  yielded_by 0 (fst (run fmt_id repr two_callers
                       {| the_object := foo_a1_x; generators := [] |}))
  = yielded_by 1 (fst (run fmt_id repr two_callers
                         {| the_object := foo_a1_x; generators := [] |}))
  /\ consume (pretty_next fmt_id foo_a1_x) 12 (__pretty__ foo_a1_x)
     = pretty_tokens fmt_id foo_a1_x.
Proof.
  pose proof (@C9_calls_keep_no_state instance _ pyobj fmt_id repr foo_a1_x
                two_callers) as Hcalls.
  cbv zeta in Hcalls.
  destruct Hcalls as (_ & _ & _ & _ & _ & Hsame & Hconsume).
  split.
  - apply Hsame; reflexivity.
  - apply Hconsume. simpl. lia.
Defined.

(** ** An entry named by the empty string *)

Lemma __repr_str___single (Self : Type) (R : Representable Self)
  (rp : pyobj -> result string) (self : Self) (join_str : string)
  (e : option string * pyobj) :
  __repr_args__ self = Ok [e] ->
  __repr_str__ rp self join_str = repr_entry rp e.
Proof.
  intros Hargs. unfold __repr_str__. rewrite Hargs. simpl.
  now destruct (repr_entry rp e).
Qed.

(** C10. For an entry whose name is the empty string the renderers differ:
    [__repr_str__] tests the truth of the name and renders the bare debug
    form of the value, without a label and an equals sign; [__pretty__] and
    [__rich_repr__] test the name against None and yield the empty label, an
    equals sign alone and a pair of the empty name and the value. *)
Theorem C10_empty_name_is_a_label_for_the_hooks_only
  (Self : Type) (R : Representable Self) (F : Type) (fmt : pyobj -> F)
  (rp : pyobj -> result string) (v : pyobj) (rest : ReprArgs) :
  repr_entry rp (Some "", v) = rp v
  /\ pretty_loop fmt ((Some "", v) :: rest)
     = (Yielded (TStr "="), pretty_at_name v rest)
  /\ rich_loop ((Some "", v) :: rest)
     = (Yielded (RichPair "" v), rich_in_loop rest)
  /\ repr_entry rp (None, v) = rp v
  /\ pretty_loop fmt ((None, v) :: rest)
     = (Yielded (TFmt (fmt v)), pretty_at_value rest)
  /\ rich_loop ((None, v) :: rest) = (Yielded (RichValue v), rich_in_loop rest)
  /\ repr_entry rp (Some "a", v) = (r <- rp v ;; Ok ("a=" ++ r))
  /\ (forall (self : Self) (join_str : string),
         __repr_args__ self = Ok [(Some "", v)] ->
         __repr_str__ rp self join_str = rp v
         /\ __str__ rp self = rp v
         /\ __repr__ rp self = (r <- rp v ;; Ok (__repr_name__ self ++ "(" ++ r ++ ")"))
         /\ consume (pretty_next fmt self) 9 (__pretty__ self)
            = ([TStr (__repr_name__ self ++ "("); TInt 1;
                TStr "="; TFmt (fmt v); TStr ","; TInt 0;
                TInt (-1); TStr ")"], Exhausted)
         /\ consume (rich_next self) 3 (__rich_repr__ self)
            = ([RichPair "" v], Exhausted))
  /\ repr (PyInstance foo_unnamed) = Ok "Foo(7)"
  /\ str (PyInstance foo_unnamed) = Ok "7"
  /\ consume (pretty_next fmt_id foo_unnamed) 9 (__pretty__ foo_unnamed)
     = ([TStr "Foo("; TInt 1; TStr "="; TFmt (PyInt 7); TStr ","; TInt 0;
         TInt (-1); TStr ")"], Exhausted)
  /\ consume (rich_next foo_unnamed) 3 (__rich_repr__ foo_unnamed)
     = ([RichPair "" (PyInt 7)], Exhausted).
Proof.
  repeat (split; [reflexivity|]).
  split; [|repeat split; reflexivity].
  intros self join_str Hargs.
  assert (Hstr : forall sep, __repr_str__ rp self sep = rp v).
  { intros sep. now rewrite (@__repr_str___single _ _ rp self sep _ Hargs). }
  split; [apply Hstr|].
  split; [apply Hstr|].
  split; [unfold __repr__; now rewrite Hstr|].
  split.
  - rewrite consume_pretty.
    + unfold pretty_tokens, pretty_rest, __pretty__. now rewrite Hargs.
    + unfold pretty_tokens, pretty_rest, __pretty__. rewrite Hargs. simpl. lia.
  - rewrite consume_rich.
    + unfold rich_items. now rewrite Hargs.
    + unfold rich_items. rewrite Hargs. simpl. lia.
Qed.

Lemma C10_empty_name_is_a_label_for_the_hooks_only_witness :
  __repr_str__ repr foo_unnamed ", " = Ok "7"
  /\ consume (rich_next foo_unnamed) 3 (__rich_repr__ foo_unnamed)
     = ([RichPair "" (PyInt 7)], Exhausted).
Proof.
  destruct (@C10_empty_name_is_a_label_for_the_hooks_only
              instance _ pyobj fmt_id repr (PyInt 7) [])
    as (_ & _ & _ & _ & _ & _ & _ & Hobject & _).
  destruct (Hobject foo_unnamed ", " eq_refl) as (Hstr & _ & _ & _ & Hrich).
  split; [exact Hstr | exact Hrich].
Defined.

(** * Further properties *)

(** ** The generators, consumed in full or in part *)

Section ConsumeFacts.
Context {Self : Type} `{Representable Self}.
Context {F : Type}.
Variable fmt : pyobj -> F.
Variable self : Self.

Lemma length_pretty_entries (args : ReprArgs) :
  List.length (pretty_entries fmt args)
  = 3 * List.length args + List.length (filter is_named args) + 2.
Proof.
  unfold pretty_entries. rewrite length_app. simpl.
  induction args as [|[[n|] v] args IH]; simpl in *; try rewrite length_app;
    simpl; lia.
Qed.

Lemma consume_pretty_prefix :
  forall count g,
    fst (consume (pretty_next fmt self) count g)
    = firstn count (fst (pretty_rest fmt self g))
    /\ (count <= List.length (fst (pretty_rest fmt self g)) ->
        snd (consume (pretty_next fmt self) count g) = Suspended).
Proof.
  induction count as [|count IH]; intros g; [split; reflexivity|].
  simpl. pose proof (pretty_next_rest fmt self g) as Hstep.
  destruct (pretty_next fmt self g) as [[t| |e] g'].
  - rewrite Hstep. simpl. destruct (IH g') as [Hfst Hsnd].
    destruct (consume (pretty_next fmt self) count g') as [ts en].
    simpl in *. split; [now rewrite Hfst|]. intros Hle. apply Hsnd. lia.
  - destruct Hstep as [-> _]. simpl. split; [reflexivity|lia].
  - destruct Hstep as [-> _]. simpl. split; [reflexivity|lia].
Qed.
End ConsumeFacts.

(** X1. Consumed to its end, [__rich_repr__] gives one item for each entry
    of [__repr_args__], in the same order: the bare value of an entry without
    a name, the pair of name and value otherwise.  When [__repr_args__]
    raises, the first [next] raises the same exception and nothing was
    yielded. *)
Theorem rich_repr_one_item_per_entry (Self : Type) (R : Representable Self)
  (self : Self) (count : nat) :
  (forall args,
      __repr_args__ self = Ok args ->
      List.length args < count ->
      consume (rich_next self) count (__rich_repr__ self)
      = (map rich_entry args, Exhausted))
  /\ (forall e,
         __repr_args__ self = Raise e ->
         0 < count ->
         consume (rich_next self) count (__rich_repr__ self) = ([], Failed e)).
Proof.
  split.
  - intros args Hargs Hlen.
    destruct count as [|k]; [lia|].
    pose proof (@consume_rich_loop Self R self args (S k) Hlen) as Hloop.
    simpl in Hloop |- *. now rewrite Hargs.
  - intros e Hargs Hpos. destruct count as [|k]; [lia|].
    simpl. now rewrite Hargs.
Qed.

Lemma rich_repr_one_item_per_entry_witness :
  consume (rich_next foo_a1_x) 3 (__rich_repr__ foo_a1_x)
  = ([RichPair "a" (PyInt 1); RichValue (PyStr "x")], Exhausted)
  /\ consume (rich_next bare) 1 (__rich_repr__ bare) = ([], Failed AttributeError).
Proof.
  split.
  - apply (proj1 (@rich_repr_one_item_per_entry instance instance_Representable foo_a1_x 3)
             [(Some "a", PyInt 1); (None, PyStr "x")] eq_refl).
    simpl. lia.
  - apply (proj2 (@rich_repr_one_item_per_entry instance instance_Representable bare 1)
             AttributeError eq_refl).
    lia.
Defined.

(** X2. Consumed to its end, [__pretty__] yields the display name with an
    opening parenthesis, the indent 1, then for each entry its name with an
    equals sign when the name is not None, the formatted value, a comma and
    the line break 0, and last the dedent -1 and the closing parenthesis:
    four tokens around, three for each entry and one more for each name. *)
Theorem pretty_tokens_of_entries (Self : Type) (R : Representable Self)
  (F : Type) (fmt : pyobj -> F) (self : Self) (args : ReprArgs) (count : nat)
  (Hargs : __repr_args__ self = Ok args)
  (Hcount : 3 * List.length args + List.length (filter is_named args) + 4 < count) :
  consume (pretty_next fmt self) count (__pretty__ self)
  = ((TStr (__repr_name__ self ++ "(") :: TInt 1
        :: flat_map (pretty_entry fmt) args ++ [TInt (-1); TStr ")"])%list,
     Exhausted)
  /\ List.length (fst (consume (pretty_next fmt self) count (__pretty__ self)))
     = 3 * List.length args + List.length (filter is_named args) + 4.
Proof.
  assert (Htokens : pretty_tokens fmt self
                    = ((TStr (__repr_name__ self ++ "(") :: TInt 1
                          :: flat_map (pretty_entry fmt) args
                          ++ [TInt (-1); TStr ")"])%list, Exhausted)).
  { unfold pretty_tokens, pretty_rest, __pretty__. now rewrite Hargs. }
  assert (Hlen : List.length (fst (pretty_tokens fmt self))
                 = 3 * List.length args + List.length (filter is_named args) + 4).
  { rewrite Htokens. simpl.
    pose proof (length_pretty_entries fmt args) as Hl.
    unfold pretty_entries in Hl. rewrite Hl. lia. }
  rewrite consume_pretty by lia.
  split; [exact Htokens|exact Hlen].
Qed.

Lemma pretty_tokens_of_entries_witness :
  consume (pretty_next fmt_id foo_a1_x) 12 (__pretty__ foo_a1_x)
  = ([TStr "Foo("; TInt 1;
      TStr "a="; TFmt (PyInt 1); TStr ","; TInt 0;
      TFmt (PyStr "x"); TStr ","; TInt 0;
      TInt (-1); TStr ")"], Exhausted).
Proof.
  refine (proj1 (@pretty_tokens_of_entries instance instance_Representable pyobj fmt_id foo_a1_x
                   [(Some "a", PyInt 1); (None, PyStr "x")] 12 eq_refl _)).
  simpl. lia.
Defined.

(** X3. [__pretty__] asks for the entries only when it reaches the loop: when
    [__repr_args__] raises, the generator has already yielded the display
    name with the opening parenthesis and the indent, and the third [next]
    raises the exception. *)
Theorem pretty_yields_opening_before_failure (Self : Type)
  (R : Representable Self) (F : Type) (fmt : pyobj -> F) (self : Self)
  (e : exception) (count : nat)
  (Hargs : __repr_args__ self = Raise e)
  (Hcount : 2 < count) :
  consume (pretty_next fmt self) count (__pretty__ self)
  = ([TStr (__repr_name__ self ++ "("); TInt 1], Failed e)
  /\ consume (pretty_next fmt self) 2 (__pretty__ self)
     = ([TStr (__repr_name__ self ++ "("); TInt 1], Suspended).
Proof.
  split; [|reflexivity].
  rewrite consume_pretty.
  - unfold pretty_tokens, pretty_rest, __pretty__. now rewrite Hargs.
  - unfold pretty_tokens, pretty_rest, __pretty__. rewrite Hargs. simpl. lia.
Qed.

Lemma pretty_yields_opening_before_failure_witness :
  consume (pretty_next fmt_id bare) 3 (__pretty__ bare)
  = ([TStr "Bare("; TInt 1], Failed AttributeError).
Proof.
  refine (proj1 (@pretty_yields_opening_before_failure instance instance_Representable pyobj fmt_id
                   bare AttributeError 3 eq_refl _)).
  lia.
Defined.

(** X4. A consumer that stops early has seen a prefix of the full sequence:
    [count] calls of [next] give the first [count] tokens, and the generator
    is left suspended as long as tokens remain. *)
Theorem pretty_partial_consumption_is_a_prefix (Self : Type)
  (R : Representable Self) (F : Type) (fmt : pyobj -> F) (self : Self)
  (count : nat) :
  fst (consume (pretty_next fmt self) count (__pretty__ self))
  = firstn count (fst (pretty_tokens fmt self))
  /\ (count <= List.length (fst (pretty_tokens fmt self)) ->
      snd (consume (pretty_next fmt self) count (__pretty__ self)) = Suspended).
Proof.
  apply consume_pretty_prefix.
Qed.

Lemma pretty_partial_consumption_is_a_prefix_witness :
  snd (consume (pretty_next fmt_id foo_a1_x) 5 (__pretty__ foo_a1_x)) = Suspended.
Proof.
  refine (proj2 (@pretty_partial_consumption_is_a_prefix instance instance_Representable pyobj fmt_id
                   foo_a1_x 5) _).
  simpl. lia.
Defined.

(** ** When the default __repr_args__ raises *)

Lemma getattr_raises_AttributeError (self : instance) (s : string) (e : exception) :
  getattr self s = Raise e -> e = AttributeError.
Proof.
  unfold getattr.
  destruct (assoc s (slot_store self)) as [[v|]|]; try discriminate;
    [now intros [= <-]|].
  destruct (dict self) as [d|]; [|now intros [= <-]].
  destruct (assoc s d); [discriminate|now intros [= <-]].
Qed.

Lemma attrs_comprehension_raises (self : instance) (names : list string)
  (e : exception) :
  attrs_comprehension self names = Raise e -> e = AttributeError.
Proof.
  induction names as [|s names IH]; simpl; [discriminate|].
  destruct (getattr self s) as [v|e'] eqn:Hget; simpl.
  - destruct (is_not_None v); [|exact IH].
    destruct (attrs_comprehension self names); simpl; [discriminate|].
    intros [= <-]. now apply IH.
  - intros [= <-]. now apply getattr_raises_AttributeError with self s.
Qed.

Lemma attrs_comprehension_returns (self : instance) (names : list string) :
  (exists entries, attrs_comprehension self names = Ok entries)
  <-> (forall s, In s names -> exists v, getattr self s = Ok v).
Proof.
  induction names as [|s names IH]; simpl.
  - split; [intros _ s []|intros _; now exists []].
  - destruct (getattr self s) as [v|e] eqn:Hget; simpl.
    + split.
      * intros Hok s' [<-|Hin]; [now exists v|].
        apply IH; [|exact Hin].
        destruct (is_not_None v); [|exact Hok].
        destruct (attrs_comprehension self names) as [tail|]; [now exists tail|].
        destruct Hok as [entries Hentries]. discriminate.
      * intros Hall.
        assert (Htail : exists entries, attrs_comprehension self names = Ok entries).
        { apply IH. intros s' Hs'. apply Hall. now right. }
        destruct Htail as [tail Htail].
        destruct (is_not_None v); [|now exists tail].
        rewrite Htail. simpl. eauto.
    + split.
      * intros [entries Hentries]. discriminate.
      * intros Hall. destruct (Hall s (or_introl eq_refl)) as [v Hv].
        congruence.
Qed.

(** X5. The default [__repr_args__] raises nothing but AttributeError.  It
    returns exactly when the names are there, the slots or else the keys of
    [__dict__], and every name can be read: an object with neither slots nor
    [__dict__] raises, and so does one with a declared slot that is not set. *)
Theorem default_repr_args_raise_AttributeError_only (self : instance)
  (Hdefault : repr_args_override self = None) :
  (forall e, __repr_args__ self = Raise e -> e = AttributeError)
  /\ ((exists entries, __repr_args__ self = Ok entries)
      <-> (exists names,
              attrs_names_of self = Ok names
              /\ forall s, In s names -> exists v, getattr self s = Ok v))
  /\ (slots self = [] -> dict self = None ->
      __repr_args__ self = Raise AttributeError)
  /\ (forall s, In s (slots self) -> assoc s (slot_store self) = Some None ->
                __repr_args__ self = Raise AttributeError).
Proof.
  cbn [__repr_args__ instance_Representable]. rewrite Hdefault.
  unfold Representation__repr_args__.
  assert (Hraise : forall e,
             (attrs_names <- attrs_names_of self ;;
              attrs_comprehension self attrs_names) = Raise e ->
             e = AttributeError).
  { intros e. destruct (attrs_names_of self) as [names|e'] eqn:Hnames; simpl.
    - apply attrs_comprehension_raises.
    - intros [= <-]. unfold attrs_names_of, dict_keys in Hnames.
      destruct (truthy_names (slots self)); [discriminate|].
      destruct (dict self); [discriminate|]. now injection Hnames as <-. }
  assert (Hreturns :
            (exists entries,
                (attrs_names <- attrs_names_of self ;;
                 attrs_comprehension self attrs_names) = Ok entries)
            <-> (exists names,
                    attrs_names_of self = Ok names
                    /\ forall s, In s names -> exists v, getattr self s = Ok v)).
  { destruct (attrs_names_of self) as [names|e'] eqn:Hnames; simpl.
    - rewrite attrs_comprehension_returns. split.
      + intros Hall. now exists names.
      + intros (names' & [= <-] & Hall). exact Hall.
    - split; [intros [entries Hentries]|intros (names & Hn & _)]; discriminate. }
  split; [exact Hraise|]. split; [exact Hreturns|]. split.
  - intros Hslots Hdict. unfold attrs_names_of, dict_keys.
    now rewrite Hslots, Hdict.
  - intros s Hs Hunset.
    destruct (attrs_names <- attrs_names_of self ;;
              attrs_comprehension self attrs_names) as [entries|e] eqn:Hrun.
    + assert (Hex : exists entries0 : ReprArgs, Ok entries = Ok entries0)
        by now exists entries.
      apply Hreturns in Hex. destruct Hex as (names & Hnames & Hall).
      unfold attrs_names_of in Hnames.
      destruct (slots self) as [|s0 rest] eqn:Hslots; [contradiction|].
      simpl in Hnames. injection Hnames as <-.
      destruct (Hall s Hs) as [v Hv]. unfold getattr in Hv.
      rewrite Hunset in Hv. discriminate.
    + now rewrite (Hraise e eq_refl).
Qed.

Lemma default_repr_args_raise_AttributeError_only_witness :
  __repr_args__ bare = Raise AttributeError
  /\ __repr_args__ (slotted_instance "Point" [("x", Some (PyInt 1)); ("y", None)])
     = Raise AttributeError.
Proof.
  split.
  - exact (proj1 (proj2 (proj2 (@default_repr_args_raise_AttributeError_only
                                   bare eq_refl))) eq_refl eq_refl).
  - refine (proj2 (proj2 (proj2 (@default_repr_args_raise_AttributeError_only
                                   (slotted_instance "Point"
                                      [("x", Some (PyInt 1)); ("y", None)])
                                   eq_refl))) "y" _ eq_refl).
    simpl. auto.
Defined.

(** X6. When [__slots__] is not empty the default [__repr_args__] shows the
    slots only: every entry is named by a slot, and an attribute that lives in
    [__dict__] alone is not shown, whatever its value. *)
Theorem slots_hide_the_dict (self : instance) (entries : ReprArgs)
  (Hdefault : repr_args_override self = None)
  (Hslots : slots self <> [])
  (Hentries : __repr_args__ self = Ok entries) :
  entries = flat_map (kept_entry self) (slots self)
  /\ (forall a v, In (a, v) entries -> exists s, a = Some s /\ In s (slots self))
  /\ (forall k v, ~ In k (slots self) -> ~ In (Some k, v) entries)
  /\ (forall e, In e entries -> is_named e = true).
Proof.
  cbn [__repr_args__ instance_Representable] in Hentries.
  rewrite Hdefault in Hentries.
  unfold Representation__repr_args__, attrs_names_of in Hentries.
  destruct (slots self) as [|s0 rest] eqn:Hs; [contradiction|].
  cbn [truthy_names bind] in Hentries.
  apply attrs_comprehension_flat_map in Hentries.
  assert (Hin : forall a v, In (a, v) entries ->
                            exists s, a = Some s /\ In s (s0 :: rest)).
  { intros a v Hav. rewrite Hentries in Hav. apply in_flat_map in Hav.
    destruct Hav as (s & Hs' & Hkept). apply in_kept_entry in Hkept.
    destruct Hkept as (-> & _). now exists s. }
  split; [exact Hentries|]. split; [exact Hin|]. split.
  - intros k v Hk Hkv. destruct (Hin _ _ Hkv) as (s & [= ->] & Hs').
    contradiction.
  - intros [a v] He. destruct (Hin _ _ He) as (s & -> & _). reflexivity.
Qed.

Lemma slots_hide_the_dict_witness :
  [(Some "x", PyInt 1)] = flat_map (kept_entry point_with_dict) ["x"]
  /\ ~ In (Some "y", PyInt 2) [(Some "x", PyInt 1)].
Proof.
  assert (Hne : slots point_with_dict <> []) by discriminate.
  destruct (@slots_hide_the_dict point_with_dict [(Some "x", PyInt 1)]
              eq_refl Hne eq_refl) as (Hflat & _ & Hhidden & _).
  split; [exact Hflat|].
  apply Hhidden. simpl. intros [Hxy|[]]. discriminate Hxy.
Defined.

(** ** The two strings *)

Lemma mapM_Raise (A B : Type) (f : A -> result B) (xs : list A) (e : exception) :
  mapM f xs = Raise e -> exists x, In x xs /\ f x = Raise e.
Proof.
  induction xs as [|x xs IH]; simpl; [discriminate|].
  destruct (f x) as [y|e'] eqn:Hfx; simpl.
  - destruct (mapM f xs) as [ys|e'']; simpl; [discriminate|].
    intros [= <-]. destruct (IH eq_refl) as (x' & Hin & Hx').
    exists x'. auto.
  - intros [= <-]. exists x. auto.
Qed.

Lemma __repr_str___raises (Self : Type) (R : Representable Self)
  (rp : pyobj -> result string) (self : Self) (sep1 sep2 : string)
  (e : exception) :
  __repr_str__ rp self sep1 = Raise e -> __repr_str__ rp self sep2 = Raise e.
Proof.
  unfold __repr_str__.
  destruct (__repr_args__ self) as [args|e']; simpl; [|trivial].
  destruct (mapM (repr_entry rp) args); simpl; [discriminate|trivial].
Qed.

(** X7. [__str__] and [__repr__] work on the same entries: one raises exactly
    when the other does, with the same exception, and when they return
    they hold the same rendered entries, joined by a space and, inside the
    parentheses after the display name, by a comma and a space. *)
Theorem str_and_repr_succeed_together (Self : Type) (R : Representable Self)
  (rp : pyobj -> result string) (self : Self) :
  (forall e, __str__ rp self = Raise e <-> __repr__ rp self = Raise e)
  /\ (forall s, __str__ rp self = Ok s ->
        exists parts,
          s = join " " parts
          /\ __repr__ rp self
             = Ok (__repr_name__ self ++ "(" ++ join ", " parts ++ ")"))
  /\ (forall r, __repr__ rp self = Ok r -> exists s, __str__ rp self = Ok s).
Proof.
  split; [|split].
  - intros e. unfold __str__, __repr__. split.
    + intros Hstr.
      now rewrite (@__repr_str___raises Self R rp self " " ", " e Hstr).
    + destruct (__repr_str__ rp self ", ") as [s|e'] eqn:Hs; simpl;
        [discriminate|].
      intros [= <-]. now apply (@__repr_str___raises Self R rp self ", " " " e').
  - intros s. unfold __str__, __repr__, __repr_str__.
    destruct (__repr_args__ self) as [args|e']; simpl; [|discriminate].
    destruct (mapM (repr_entry rp) args) as [parts|e']; simpl; [|discriminate].
    intros [= <-]. now exists parts.
  - intros r. unfold __str__, __repr__, __repr_str__.
    destruct (__repr_args__ self) as [args|e']; simpl; [|discriminate].
    destruct (mapM (repr_entry rp) args) as [parts|e']; simpl; [|discriminate].
    intros _. eauto.
Qed.

Lemma str_and_repr_succeed_together_witness :
  __repr__ repr bare = Raise AttributeError
  /\ exists parts,
       "a=1 'x'" = join " " parts
       /\ __repr__ repr foo_a1_x = Ok ("Foo" ++ "(" ++ join ", " parts ++ ")").
Proof.
  split.
  - exact (proj1 (proj1 (@str_and_repr_succeed_together
                           instance instance_Representable repr bare)
                    AttributeError) eq_refl).
  - exact (proj1 (proj2 (@str_and_repr_succeed_together
                           instance instance_Representable repr foo_a1_x))
             "a=1 'x'" eq_refl).
Defined.

(** ** display_as_type on values and on bare typing objects *)

(** X8. Given a value that is no function, no ellipsis, no Representation, no
    TypeAliasType and no type expression, [display_as_type] displays its
    class: the result is the qualified name of [obj.__class__], the same as
    for the class itself. *)
Theorem display_as_type_of_a_value_is_its_class (obj : pyobj)
  (Hfunction : isinstance_FunctionType obj = false)
  (Hellipsis : is_Ellipsis obj = false)
  (Hrepresentation : isinstance_Representation obj = false)
  (Halias : isinstance_TypeAliasType obj = false)
  (Hvalue : isinstance_type_expression obj = false) :
  display_as_type obj = display_as_type (__class__ obj)
  /\ display_as_type obj = getattr__qualname__ (__class__ obj)
  /\ exists c, __class__ obj = PyType c
               /\ display_as_type obj = Ok (cls_qualname c).
Proof.
  destruct obj; try discriminate; repeat split; try reflexivity;
    eexists; split; reflexivity.
Qed.

Lemma display_as_type_of_a_value_is_its_class_witness :
  display_as_type (PyStr "foobar") = Ok "str"
  /\ display_as_type PyNone = Ok "NoneType"
  /\ display_as_type (PlainRepr "x") = Ok "PlainRepr".
Proof.
  split; [|split].
  - exact (proj1 (proj2 (@display_as_type_of_a_value_is_its_class
                           (PyStr "foobar")
                           eq_refl eq_refl eq_refl eq_refl eq_refl))).
  - exact (proj1 (proj2 (@display_as_type_of_a_value_is_its_class
                           PyNone eq_refl eq_refl eq_refl eq_refl eq_refl))).
  - exact (proj1 (proj2 (@display_as_type_of_a_value_is_its_class
                           (PlainRepr "x")
                           eq_refl eq_refl eq_refl eq_refl eq_refl))).
Defined.

Lemma prefix_app (old s : string) : String.prefix old (old ++ s) = true.
Proof.
  induction old as [|c old IH]; simpl; [now destruct s|].
  destruct (Ascii.ascii_dec c c) as [_|Hne]; [exact IH|now contradiction Hne].
Qed.

Lemma replace_from_skip (old new pre s : string) :
  replace_from old new (String.length pre) (pre ++ s) = replace_from old new 0 s.
Proof.
  induction pre as [|c pre IH]; simpl; [now destruct s|exact IH].
Qed.

(** A leading occurrence is replaced, and the scan goes on after it. *)
Lemma replace_leading (c : ascii) (old new s : string) :
  replace (String c old) new (String c old ++ s)
  = new ++ replace (String c old) new s.
Proof.
  unfold replace.
  change (String c old ++ s) with (String c (old ++ s)).
  cbn [replace_from].
  change (String c (old ++ s)) with (String c old ++ s).
  rewrite prefix_app.
  cbn [String.length].
  replace (S (String.length old) - 1) with (String.length old) by lia.
  now rewrite replace_from_skip.
Qed.

(** Without an occurrence the text is unchanged. *)
Lemma replace_absent (old new s : string) :
  is_substring old s = false -> replace old new s = s.
Proof.
  destruct old as [|c old]; [now destruct s|].
  unfold replace.
  induction s as [|d s IH]; [reflexivity|].
  intros Habsent. cbn [is_substring] in Habsent.
  apply orb_false_iff in Habsent. destruct Habsent as [Hprefix Hrest].
  cbn [replace_from]. rewrite Hprefix. f_equal. now apply IH.
Qed.

Lemma display_as_type_bare (t : typing_object) :
  origin_is_union (get_origin_of t) = false ->
  with_args t = false ->
  display_as_type (PyTyping t)
  = (r <- repr_of t ;;
     Ok (replace "typing_extensions." "" (replace "typing." "" r))).
Proof.
  intros Hunion Hwith. now rewrite display_as_type_PyTyping, Hunion, Hwith.
Qed.

(** X9. For a typing object that is neither a union nor parameterized,
    [display_as_type] gives the debug form without the module prefix: a text
    that mentions neither [typing.] nor [typing_extensions.] is returned as
    it is, a leading [typing.] or [typing_extensions.] before such a text is
    dropped, and an exception of the debug form is passed on. *)
Theorem display_as_type_drops_the_module_prefix (t : typing_object)
  (rest : string)
  (Hunion : origin_is_union (get_origin_of t) = false)
  (Hwith : with_args t = false)
  (Htyping : is_substring "typing." rest = false)
  (Hextensions : is_substring "typing_extensions." rest = false) :
  (repr_of t = Ok rest -> display_as_type (PyTyping t) = Ok rest)
  /\ (repr_of t = Ok ("typing." ++ rest) ->
      display_as_type (PyTyping t) = Ok rest)
  /\ (repr_of t = Ok ("typing_extensions." ++ rest) ->
      display_as_type (PyTyping t) = Ok rest)
  /\ (forall e, repr_of t = Raise e -> display_as_type (PyTyping t) = Raise e).
Proof.
  rewrite (display_as_type_bare t Hunion Hwith).
  split; [|split; [|split]].
  - intros ->. cbn [bind].
    now rewrite (replace_absent "typing." "" rest Htyping),
      (replace_absent "typing_extensions." "" rest Hextensions).
  - intros ->. cbn [bind].
    rewrite (replace_leading "t" "yping." "" rest).
    rewrite (replace_absent "typing." "" rest Htyping).
    change ("" ++ rest) with rest.
    now rewrite (replace_absent "typing_extensions." "" rest Hextensions).
  - intros ->. cbn [bind].
    rewrite (replace_absent "typing." "" ("typing_extensions." ++ rest)).
    + rewrite (replace_leading "t" "yping_extensions." "" rest).
      rewrite (replace_absent "typing_extensions." "" rest Hextensions).
      reflexivity.
    + cbn. cbn in Htyping. exact Htyping.
  - intros e ->. reflexivity.
Qed.

Lemma display_as_type_drops_the_module_prefix_witness :
  display_as_type (PyTyping List_bare_alias) = Ok "List".
Proof.
  exact (proj1 (proj2 (@display_as_type_drops_the_module_prefix
                         List_bare_alias "List"
                         eq_refl eq_refl eq_refl eq_refl)) eq_refl).
Defined.

(** ** Where an exception comes from *)

Lemma repr_entry_raises (rp : pyobj -> result string)
  (a : option string) (v : pyobj) (e : exception) :
  repr_entry rp (a, v) = Raise e -> rp v = Raise e.
Proof.
  simpl. destruct (truthy a); [|trivial].
  destruct (rp v); simpl; [discriminate|trivial].
Qed.

Lemma repr_raises_inside :
  forall n v e,
    depth v <= n ->
    repr v = Raise e ->
    exists x,
      held_in x v
      /\ ((exists t, x = PyTyping t /\ repr_of t = Raise e)
          \/ (exists o, x = PyInstance o /\ __repr_args__ o = Raise e)).
Proof.
  induction n as [|n IH]; intros v e Hdepth Hrepr;
    destruct v; try discriminate Hrepr; simpl in Hdepth; try lia.
  - exists (PyTyping t). split; [constructor|]. left. now exists t.
  - rewrite repr_PyInstance in Hrepr. unfold __repr__, __repr_str__ in Hrepr.
    destruct (@__repr_args__ instance instance_Representable o)
      as [args|e'] eqn:Hargs; cbn [bind] in Hrepr.
    + destruct (mapM (repr_entry repr) args) as [parts|e'] eqn:Hparts;
        cbn [bind] in Hrepr; [discriminate Hrepr|].
      injection Hrepr as ->.
      apply mapM_Raise in Hparts. destruct Hparts as ([a w] & Hin & Hentry).
      apply repr_entry_raises in Hentry.
      pose proof (depth_repr_args o Hargs (a, w) Hin) as Hlt. simpl in Hlt.
      destruct (IH w e) as (x & Hheld & Hroot); [lia|exact Hentry|].
      exists x. split; [|exact Hroot].
      now apply held_entry with w args a.
    + injection Hrepr as ->.
      exists (PyInstance o). split; [constructor|]. right. now exists o.
Qed.

(** X10. The built-in values never fail to print, and the mixin adds no
    failure of its own: when [repr] raises on an object, the exception is the
    one of [__repr_args__] on an instance held in it, at some depth of the
    entries, or the one of the debug form of a typing object held in it. *)
Theorem repr_raises_only_from_repr_args (v : pyobj) (e : exception)
  (Hrepr : repr v = Raise e) :
  exists x,
    held_in x v
    /\ ((exists t, x = PyTyping t /\ repr_of t = Raise e)
        \/ (exists o, x = PyInstance o /\ __repr_args__ o = Raise e)).
Proof.
  apply repr_raises_inside with (depth v); [apply Nat.le_refl|exact Hrepr].
Qed.

Lemma repr_raises_only_from_repr_args_witness :
  exists x,
    held_in x (PyInstance outer_of_bare)
    /\ ((exists t, x = PyTyping t /\ repr_of t = Raise AttributeError)
        \/ (exists o, x = PyInstance o /\ __repr_args__ o = Raise AttributeError)).
Proof.
  exact (@repr_raises_only_from_repr_args (PyInstance outer_of_bare)
           AttributeError eq_refl).
Defined.

Lemma display_as_type_raises_inside :
  forall n obj e,
    depth obj < n ->
    display_as_type obj = Raise e ->
    exists x, nested_in x obj /\ repr x = Raise e.
Proof.
  induction n as [|n IH]; intros obj e Hdepth Hdisplay; [lia|].
  destruct obj; try discriminate Hdisplay.
  - destruct (origin_is_union (get_origin_of t)) eqn:Hunion.
    + rewrite display_as_type_PyTyping, Hunion in Hdisplay.
      destruct (mapM display_as_type (get_args_of t)) as [parts|e'] eqn:Hparts;
        simpl in Hdisplay; [discriminate Hdisplay|].
      injection Hdisplay as ->.
      apply mapM_Raise in Hparts. destruct Hparts as (arg & Hin & Harg).
      pose proof (depth_get_args t arg Hin) as Hlt.
      destruct (IH arg e) as (x & Hnested & Hx); [lia|exact Harg|].
      exists x. split; [|exact Hx]. now apply nested_arg with arg.
    + destruct (with_args t) eqn:Hwith.
      * rewrite (display_as_type_with_args t Hunion Hwith) in Hdisplay.
        destruct (mapM (render_argument t) (get_args_of t)) as [parts|e']
          eqn:Hparts; simpl in Hdisplay.
        -- unfold bracketed in Hdisplay.
           destruct (qualname_of t); [discriminate Hdisplay|].
           exists (PyTyping t). split; [constructor|exact Hdisplay].
        -- injection Hdisplay as ->.
           apply mapM_Raise in Hparts. destruct Hparts as (arg & Hin & Harg).
           unfold render_argument in Harg.
           destruct (origin_is_Literal (get_origin_of t)).
           ++ exists arg. split; [|exact Harg].
              apply nested_arg with arg; [exact Hin|constructor].
           ++ pose proof (depth_get_args t arg Hin) as Hlt.
              destruct (IH arg e) as (x & Hnested & Hx); [lia|exact Harg|].
              exists x. split; [|exact Hx]. now apply nested_arg with arg.
      * rewrite (display_as_type_bare t Hunion Hwith) in Hdisplay.
        destruct (repr_of t) as [r|e'] eqn:Hr; simpl in Hdisplay;
          [discriminate Hdisplay|].
        injection Hdisplay as ->.
        exists (PyTyping t). split; [constructor|exact Hr].
  - exists (PyInstance o). split; [constructor|].
    now rewrite display_as_type_unfold in Hdisplay.
Qed.

(** X11. [display_as_type] raises nothing of its own on any input: when it
    raises, the exception is the one [repr] raises on the object itself or on
    an argument nested in it, at some depth of the type arguments. *)
Theorem display_as_type_raises_only_from_repr (obj : pyobj) (e : exception)
  (Hdisplay : display_as_type obj = Raise e) :
  exists x, nested_in x obj /\ repr x = Raise e.
Proof.
  apply display_as_type_raises_inside with (S (depth obj));
    [apply Nat.lt_succ_diag_r|exact Hdisplay].
Qed.

Lemma display_as_type_raises_only_from_repr_witness :
  exists x, nested_in x Annotated_int_bare /\ repr x = Raise AttributeError.
Proof.
  exact (@display_as_type_raises_only_from_repr Annotated_int_bare
           AttributeError eq_refl).
Defined.

(** ** Values inside an entry *)

Lemma string_app_assoc (a b c : string) : (a ++ b) ++ c = a ++ (b ++ c).
Proof.
  induction a as [|x a IH]; simpl; [reflexivity|now rewrite IH].
Qed.

(** X12. The debug string nests: the value of an entry is rendered by its own
    debug form.  A PlainRepr value goes in as it is, without quotes, where
    the same text as a plain string is quoted, and an instance of
    Representation goes in with its own name and parentheses. *)
Theorem repr_of_an_entry_value (o : instance) (n : string) (v : pyobj)
  (Hargs : __repr_args__ o = Ok [(Some n, v)])
  (Hname : n <> "") :
  repr (PyInstance o)
  = (r <- repr v ;; Ok (__repr_name__ o ++ "(" ++ n ++ "=" ++ r ++ ")"))
  /\ (forall s, v = PlainRepr s ->
        repr (PyInstance o) = Ok (__repr_name__ o ++ "(" ++ n ++ "=" ++ s ++ ")"))
  /\ (forall s, v = PyStr s ->
        repr (PyInstance o)
        = Ok (__repr_name__ o ++ "(" ++ n ++ "=" ++ str_repr s ++ ")"))
  /\ (forall (inner : instance) s, v = PyInstance inner ->
        __repr_str__ repr inner ", " = Ok s ->
        repr (PyInstance o)
        = Ok (__repr_name__ o ++ "(" ++ n ++ "="
                ++ (__repr_name__ inner ++ "(" ++ s ++ ")") ++ ")")).
Proof.
  assert (Hrepr : repr (PyInstance o)
                  = (r <- repr v ;;
                     Ok (__repr_name__ o ++ "(" ++ n ++ "=" ++ r ++ ")"))).
  { rewrite repr_PyInstance. unfold __repr__, __repr_str__. rewrite Hargs.
    destruct n as [|c n]; [now contradiction Hname|].
    simpl. destruct (repr v) as [r|e]; simpl; [|reflexivity].
    now rewrite string_app_assoc. }
  split; [exact Hrepr|]. split; [|split].
  - intros s ->. now rewrite Hrepr.
  - intros s ->. now rewrite Hrepr.
  - intros inner s -> Hinner. rewrite Hrepr, repr_PyInstance.
    unfold __repr__. now rewrite Hinner.
Qed.

Lemma repr_of_an_entry_value_witness :
  repr (PyInstance (custom_instance "FieldInfo" [(Some "annotation", PlainRepr "List[int]")]))
  = Ok "FieldInfo(annotation=List[int])"
  /\ repr (PyInstance (custom_instance "Model" [(Some "y", PyInstance foo_empty)]))
     = Ok "Model(y=Foo())".
Proof.
  assert (Hann : "annotation" <> "") by discriminate.
  assert (Hy : "y" <> "") by discriminate.
  split.
  - exact (proj1 (proj2 (@repr_of_an_entry_value
                           (custom_instance "FieldInfo"
                              [(Some "annotation", PlainRepr "List[int]")])
                           "annotation" (PlainRepr "List[int]") eq_refl Hann))
             "List[int]" eq_refl).
  - exact (proj2 (proj2 (proj2 (@repr_of_an_entry_value
                                  (custom_instance "Model"
                                     [(Some "y", PyInstance foo_empty)])
                                  "y" (PyInstance foo_empty) eq_refl Hy)))
             foo_empty "" eq_refl eq_refl).
Defined.
